(** * A minimal MCP server: the JSON-RPC dispatcher and its handlers

    Shallow embedding of the Go program.  Two source files are modelled:

    - [Server]: the complete server (request dispatcher, the five method
      handlers, the tool executor, the resource reader, registration);
    - [Draft]: [mcp_server/cmd/mcp/main.go], a draft of the same
      handlers.

    Go values of static type [interface{}] are modelled by the tagged union
    [any]; Go maps by stdpp's [gmap]; the [MCPServer] receiver is passed
    explicitly. *)

From Stdlib Require Import Ascii String ZArith Floats.PrimFloat.
From stdpp Require Import gmap strings list fin_maps.

#[local] Open Scope string_scope.
#[local] Open Scope Z_scope.

(** ** Go values *)

(** [type Resource struct]: four string fields. *)
Module Resource.
Record t : Type := mk {
  URI : string;
  Name : string;
  Description : string;
  MimeType : string
}.
End Resource.

(** [type Tool struct]: [InputSchema] has static type [interface{}]; the
    record is parametric in it so that [any] below can nest it. *)
Module Tool.
Record t {dyn : Type} : Type := mk {
  Name : string;
  Description : string;
  InputSchema : dyn
}.
Arguments t : clear implicits.
Arguments mk {dyn}.
End Tool.

(** The dynamic values that flow through [interface{}] in this program:
    what [encoding/json] decodes into ([nil], [bool], [float64], [string],
    [[]interface{}], [map[string]interface{}]) and the statically typed
    slices the handlers store in their results. *)
#[warnings="-register-all"]
Inductive any : Type :=
  | ANil
  | ABool (b : bool)
  | ANumber (f : float)
  | AString (s : string)
  | ASlice (l : list any)
  | AMap (m : gmap string any)
  | AStrings (l : list string)
  | AMaps (l : list (gmap string any))
  | ATools (l : list (Tool.t any))
  | AResources (l : list Resource.t).

(** [m[k]] on a [map[string]interface{}]: the zero value [nil] when the
    key is absent. *)
Definition index (m : gmap string any) (k : string) : any :=
  default ANil (m !! k).

(** [v.(map[string]interface{})] with the comma-ok form. *)
Definition assertMap (v : any) : option (gmap string any) :=
  match v with AMap m => Some m | _ => None end.

(** [v.(string)] with the comma-ok form. *)
Definition assertString (v : any) : option string :=
  match v with AString s => Some s | _ => None end.

(** [strings.HasPrefix(s, prefix)], as the Go library defines it:
    [len(s) >= len(prefix) && s[:len(prefix)] == prefix]. *)
Definition HasPrefix (s prefix : string) : bool :=
  (String.length prefix <=? String.length s)%nat
  && String.eqb (String.substring 0 (String.length prefix) s) prefix.

(** [for _, v := range m] over a Go map visits every entry exactly once, in
    an order the runtime chooses and may change from one loop to the next.
    [map_range m order] says that [order] is one such visit. *)
Definition map_range {V : Type} (m : gmap string V) (order : list (string * V)) : Prop :=
  order ≡ₚ map_to_list m.

(** ** Protocol structures *)

Module JSONRPCRequest.
Record t : Type := mk {
  JSONRPC : string;
  ID : any;
  Method : string;
  Params : any
}.
End JSONRPCRequest.

Module JSONRPCError.
Record t : Type := mk {
  Code : Z;
  Message : string;
  Data : any
}.
End JSONRPCError.

(** [Result] is an [interface{}] ([ANil] when unset) and [Error] a pointer
    ([None] when nil); both carry [omitempty]. *)
Module JSONRPCResponse.
Record t : Type := mk {
  JSONRPC : string;
  ID : any;
  Result : any;
  Error : option JSONRPCError.t
}.
End JSONRPCResponse.

Module MCPServer.
Record t : Type := mk {
  name : string;
  version : string;
  tools : gmap string (Tool.t any);
  resources : gmap string Resource.t
}.
End MCPServer.

(** The two [range] loops of a request: the visit orders the runtime picks
    for [s.tools] and [s.resources]. *)
Record RangeOrder : Type := mkRangeOrder {
  toolsOrder : list (string * Tool.t any);
  resourcesOrder : list (string * Resource.t)
}.

Definition range_ok (s : MCPServer.t) (ro : RangeOrder) : Prop :=
  map_range (MCPServer.tools s) (toolsOrder ro)
  /\ map_range (MCPServer.resources s) (resourcesOrder ro).

(** The order stdpp happens to enumerate a map in: one admissible visit. *)
Definition canonicalOrder (s : MCPServer.t) : RangeOrder :=
  {| toolsOrder := map_to_list (MCPServer.tools s);
     resourcesOrder := map_to_list (MCPServer.resources s) |}.

(** The two outcome branches of a response: [Result] is present when it is
    not the nil interface, [Error] when the pointer is not nil. *)
Definition hasResult (resp : JSONRPCResponse.t) : Prop :=
  JSONRPCResponse.Result resp <> ANil.

Definition hasError (resp : JSONRPCResponse.t) : Prop :=
  JSONRPCResponse.Error resp <> None.

(** A response is a success when only [Result] is set, a failure when only
    [Error] is set. *)
Definition isResult (resp : JSONRPCResponse.t) : Prop :=
  hasResult resp /\ JSONRPCResponse.Error resp = None.

Definition isFailure (resp : JSONRPCResponse.t) : Prop :=
  JSONRPCResponse.Result resp = ANil /\ hasError resp.

(** ** Response literals *)

(** The two response literals every handler returns:
    [&JSONRPCResponse{JSONRPC: "2.0", ID: id, Error: &JSONRPCError{Code: code, Message: message}}] *)
Definition failure (id : any) (code : Z) (message : string) : JSONRPCResponse.t :=
  {| JSONRPCResponse.JSONRPC := "2.0";
     JSONRPCResponse.ID := id;
     JSONRPCResponse.Result := ANil;
     JSONRPCResponse.Error :=
       Some {| JSONRPCError.Code := code;
               JSONRPCError.Message := message;
               JSONRPCError.Data := ANil |} |}.

(** [&JSONRPCResponse{JSONRPC: "2.0", ID: id, Result: result}] *)
Definition success (id : any) (result : gmap string any) : JSONRPCResponse.t :=
  {| JSONRPCResponse.JSONRPC := "2.0";
     JSONRPCResponse.ID := id;
     JSONRPCResponse.Result := AMap result;
     JSONRPCResponse.Error := None |}.

(** ** The server *)

Module Server.

Definition NewMCPServer (name version : string) : MCPServer.t :=
  {| MCPServer.name := name;
     MCPServer.version := version;
     MCPServer.tools := ∅;
     MCPServer.resources := ∅ |}.

(** [s.tools[tool.Name] = tool] *)
Definition RegisterTool (tool : Tool.t any) (s : MCPServer.t) : MCPServer.t :=
  {| MCPServer.name := MCPServer.name s;
     MCPServer.version := MCPServer.version s;
     MCPServer.tools := <[Tool.Name tool := tool]> (MCPServer.tools s);
     MCPServer.resources := MCPServer.resources s |}.

(** [s.resources[resource.URI] = resource] *)
Definition RegisterResource (resource : Resource.t) (s : MCPServer.t) : MCPServer.t :=
  {| MCPServer.name := MCPServer.name s;
     MCPServer.version := MCPServer.version s;
     MCPServer.tools := MCPServer.tools s;
     MCPServer.resources := <[Resource.URI resource := resource]> (MCPServer.resources s) |}.

(** The servers that registration can build. *)
Inductive Setup : MCPServer.t -> Prop :=
  | Setup_new name version :
      Setup (NewMCPServer name version)
  | Setup_tool tool s :
      Setup s -> Setup (RegisterTool tool s)
  | Setup_resource resource s :
      Setup s -> Setup (RegisterResource resource s).

Definition handleInitialize (s : MCPServer.t) (req : JSONRPCRequest.t) : JSONRPCResponse.t :=
  let result : gmap string any :=
    {[ "protocolVersion" := AString "2024-11-05";
       "capabilities" := AMap
         {[ "tools" := AMap {[ "listChanged" := ABool true ]};
            "resources" := AMap {[ "subscribe" := ABool true;
                                   "listChanged" := ABool true ]} ]};
       "serverInfo" := AMap
         {[ "name" := AString (MCPServer.name s);
            "version" := AString (MCPServer.version s) ]} ]} in
  success (JSONRPCRequest.ID req) result.

(** [order] is the visit of [range s.tools]; the loop appends each tool. *)
Definition handleToolsList (order : list (string * Tool.t any))
    (s : MCPServer.t) (req : JSONRPCRequest.t) : JSONRPCResponse.t :=
  let tools := foldl (fun tools kv => (tools ++ [kv.2])%list) [] order in
  success (JSONRPCRequest.ID req) {[ "tools" := ATools tools ]}.

Definition executeTool (s : MCPServer.t) (toolName : string) (arguments : any)
    : gmap string any :=
  if String.eqb toolName "echo" then
    match assertMap arguments with
    | None => {[ "error" := AString "Invalid arguments" ]}
    | Some args =>
        match assertString (index args "message") with
        | None => {[ "error" := AString "Message is required" ]}
        | Some message =>
            {[ "content" := AMaps
                 [ {[ "type" := AString "text";
                      "text" := AString ("Echo: " +:+ message) ]} ] ]}
        end
    end
  else {[ "error" := AString "Unknown tool" ]}.

Definition handleToolsCall (s : MCPServer.t) (req : JSONRPCRequest.t) : JSONRPCResponse.t :=
  match assertMap (JSONRPCRequest.Params req) with
  | None => failure (JSONRPCRequest.ID req) (-32602) "Invalid parameters"
  | Some params =>
      match assertString (index params "name") with
      | None => failure (JSONRPCRequest.ID req) (-32602) "Tool name is required"
      | Some toolName =>
          match MCPServer.tools s !! toolName with
          | None => failure (JSONRPCRequest.ID req) (-32601) "Tool not found"
          | Some _ =>
              let result := executeTool s toolName (index params "arguments") in
              success (JSONRPCRequest.ID req) result
          end
      end
  end.

(** [order] is the visit of [range s.resources]. *)
Definition handleResourcesList (order : list (string * Resource.t))
    (s : MCPServer.t) (req : JSONRPCRequest.t) : JSONRPCResponse.t :=
  let resources := foldl (fun resources kv => (resources ++ [kv.2])%list) [] order in
  success (JSONRPCRequest.ID req) {[ "resources" := AResources resources ]}.

Definition readResource (s : MCPServer.t) (uri : string) : string :=
  if HasPrefix uri "file://" then "Content of " +:+ uri
  else if HasPrefix uri "https://" then "Web content of " +:+ uri
  else "Unknown resource type".

Definition handleResourcesRead (s : MCPServer.t) (req : JSONRPCRequest.t) : JSONRPCResponse.t :=
  match assertMap (JSONRPCRequest.Params req) with
  | None => failure (JSONRPCRequest.ID req) (-32602) "Invalid parameters"
  | Some params =>
      match assertString (index params "uri") with
      | None => failure (JSONRPCRequest.ID req) (-32602) "URI is required"
      | Some uri =>
          if negb (HasPrefix uri "file://") && negb (HasPrefix uri "https://") then
            failure (JSONRPCRequest.ID req) (-32602) "Invalid URI scheme"
          else
            let content := readResource s uri in
            success (JSONRPCRequest.ID req)
              {[ "contents" := AMaps
                   [ {[ "uri" := AString uri;
                        "mimeType" := AString "text/plain";
                        "text" := AString content ]} ] ]}
      end
  end.

Definition HandleRequest (ro : RangeOrder) (s : MCPServer.t) (req : JSONRPCRequest.t)
    : JSONRPCResponse.t :=
  if negb (String.eqb (JSONRPCRequest.JSONRPC req) "2.0") then
    failure (JSONRPCRequest.ID req) (-32600) "Invalid JSON-RPC version"
  else if String.eqb (JSONRPCRequest.Method req) "initialize" then
    handleInitialize s req
  else if String.eqb (JSONRPCRequest.Method req) "tools/list" then
    handleToolsList (toolsOrder ro) s req
  else if String.eqb (JSONRPCRequest.Method req) "tools/call" then
    handleToolsCall s req
  else if String.eqb (JSONRPCRequest.Method req) "resources/list" then
    handleResourcesList (resourcesOrder ro) s req
  else if String.eqb (JSONRPCRequest.Method req) "resources/read" then
    handleResourcesRead s req
  else
    failure (JSONRPCRequest.ID req) (-32601) "Method not found".

(** The registry that [main] sets up before [Run]. *)
Definition echoTool : Tool.t any :=
  {| Tool.Name := "echo";
     Tool.Description := "Echo back the provided message";
     Tool.InputSchema := AMap
       {[ "type" := AString "object";
          "properties" := AMap
            {[ "message" := AMap
                 {[ "type" := AString "string";
                    "description" := AString "Message to echo back" ]} ]};
          "required" := AStrings ["message"] ]} |}.

Definition exampleResource : Resource.t :=
  {| Resource.URI := "file:///example.txt";
     Resource.Name := "Example File";
     Resource.Description := "An example text file";
     Resource.MimeType := "text/plain" |}.

Definition mainServer : MCPServer.t :=
  RegisterResource exampleResource
    (RegisterTool echoTool (NewMCPServer "CustomMCPServer" "1.0.0")).

End Server.

(** ** The draft in [mcp_server/cmd/mcp/main.go]

    The handlers the dispatcher of that file reaches, and its [tools/call]
    handler.  Its response struct spells the Go field [JSONPRC]; the JSON
    tag and the value are the same, so [JSONRPCResponse.t] is reused. *)

Module Draft.

Definition handleInitialize (s : MCPServer.t) (req : JSONRPCRequest.t) : JSONRPCResponse.t :=
  let result : gmap string any :=
    {[ "protocolVersion" := AString "2024-11-05";
       "capabilities" := AMap
         {[ "tools" := AMap {[ "listChanged" := ABool true ]};
            "resource" := AMap {[ "subscribe" := ABool true;
                                  "listChanged" := ABool true ]} ]};
       "serverInfo" := AMap
         {[ "name" := AString (MCPServer.name s);
            "version" := AString (MCPServer.version s) ]} ]} in
  success (JSONRPCRequest.ID req) result.

Definition handleToolsList (order : list (string * Tool.t any))
    (s : MCPServer.t) (req : JSONRPCRequest.t) : JSONRPCResponse.t :=
  let tools := foldl (fun tools kv => (tools ++ [kv.2])%list) [] order in
  success (JSONRPCRequest.ID req) {[ "tools" := ATools tools ]}.

Definition executeTool (s : MCPServer.t) (toolName : string) (arguments : any)
    : gmap string any :=
  if String.eqb toolName "echo" then
    match assertMap arguments with
    | None => {[ "error" := AString "Invalid arguments" ]}
    | Some args =>
        match assertString (index args "message") with
        | None => {[ "error" := AString "Message is required" ]}
        | Some message =>
            {[ "content" := AMaps
                 [ {[ "type" := AString "text";
                      "text" := AString ("Echo: " +:+ message) ]} ] ]}
        end
    end
  else {[ "error" := AString "Unknown tool" ]}.

Definition handleToolsCall (s : MCPServer.t) (req : JSONRPCRequest.t) : JSONRPCResponse.t :=
  match assertMap (JSONRPCRequest.Params req) with
  | None => failure (JSONRPCRequest.ID req) (-32602) "Invalid parameters"
  | Some params =>
      match assertString (index params "name") with
      | None => failure (JSONRPCRequest.ID req) (-32602) "Tool name is required"
      | Some toolName =>
          match MCPServer.tools s !! toolName with
          | None => failure (JSONRPCRequest.ID req) (-326001) "Tool not found"
          | Some _ =>
              let reuslt := executeTool s toolName (index params "arguments") in
              success (JSONRPCRequest.ID req) reuslt
          end
      end
  end.

(** The dispatcher of the draft.  Its [switch] has two cases and no
    [default], and no [return] follows it: [None] stands for control
    reaching the end of the function body. *)
Definition hadlerRequest (ro : RangeOrder) (s : MCPServer.t) (req : JSONRPCRequest.t)
    : option JSONRPCResponse.t :=
  if negb (String.eqb (JSONRPCRequest.JSONRPC req) "2.0") then
    Some (failure (JSONRPCRequest.ID req) (-32600) "Invalid JSON-RPC version")
  else if String.eqb (JSONRPCRequest.Method req) "initialize" then
    Some (handleInitialize s req)
  else if String.eqb (JSONRPCRequest.Method req) "tools/list" then
    Some (handleToolsList (toolsOrder ro) s req)
  else None.

Definition handleResourcesList (order : list (string * Resource.t))
    (s : MCPServer.t) (req : JSONRPCRequest.t) : JSONRPCResponse.t :=
  let resources := foldl (fun resources kv => (resources ++ [kv.2])%list) [] order in
  success (JSONRPCRequest.ID req) {[ "resources" := AResources resources ]}.

Definition readResource (s : MCPServer.t) (uri : string) : string :=
  if HasPrefix uri "file://" then "Content of " +:+ uri
  else if HasPrefix uri "https://" then "Web content of " +:+ uri
  else "Unknown resoruce type".

Definition hadleResourcesRead (s : MCPServer.t) (req : JSONRPCRequest.t) : JSONRPCResponse.t :=
  match assertMap (JSONRPCRequest.Params req) with
  | None => failure (JSONRPCRequest.ID req) (-32602) "Invalid parameters"
  | Some params =>
      match assertString (index params "uri") with
      | None => failure (JSONRPCRequest.ID req) (-32602) "Invalid parameters"
      | Some uri =>
          if negb (HasPrefix uri "file://") && negb (HasPrefix uri "https://") then
            failure (JSONRPCRequest.ID req) (-32602) "Invalid URI scheme"
          else
            let content := readResource s uri in
            success (JSONRPCRequest.ID req)
              {[ "contents" := AMaps
                   [ {[ "uri" := AString uri;
                        "mimeType" := AString "text/plain";
                        "text" := AString content ]} ] ]}
      end
  end.

(** [s.resources[resource.URI] = resource]; the draft has no [RegisterTool]. *)
Definition RegisterResource (resource : Resource.t) (s : MCPServer.t) : MCPServer.t :=
  {| MCPServer.name := MCPServer.name s;
     MCPServer.version := MCPServer.version s;
     MCPServer.tools := MCPServer.tools s;
     MCPServer.resources := <[Resource.URI resource := resource]> (MCPServer.resources s) |}.

End Draft.

(** ** The transport loop

    [Run] reads lines from standard input, answers each parsable request on
    standard output and logs what it drops.  The library functions it calls
    are parameters: [TrimSpace] is [strings.TrimSpace]; [Unmarshal] is
    [json.Unmarshal] into a fresh [JSONRPCRequest], [inl] carrying the text
    of the error; [Marshal] is [json.Marshal] of a response.  The input is
    the sequence of lines [scanner.Scan] yields and the error, if any, that
    [scanner.Err] reports once the loop ends.  [orders n] holds the visits
    the runtime picks while line [n] of the input is handled. *)

Inductive output : Type :=
  | Println (line : string)
  | LogPrintf (message : string).

Section Transport.
Variable TrimSpace : string -> string.
Variable Unmarshal : string -> string + JSONRPCRequest.t.
Variable Marshal : JSONRPCResponse.t -> string + string.

(** The [for scanner.Scan()] loop. *)
Fixpoint Run_loop (orders : nat -> RangeOrder) (s : MCPServer.t) (lines : list string)
    : list output :=
  match lines with
  | [] => []
  | line :: rest =>
      let written :=
        if String.eqb (TrimSpace line) "" then []
        else
          match Unmarshal line with
          | inl err => [LogPrintf ("JSON parsing error: " +:+ err)]
          | inr req =>
              let resp := Server.HandleRequest (orders 0%nat) s req in
              match Marshal resp with
              | inr respData => [Println respData]
              | inl err => [LogPrintf ("JSON marshaling error: " +:+ err)]
              end
          end in
      (written ++ Run_loop (fun n => orders (S n)) s rest)%list
  end.

Definition Run (orders : nat -> RangeOrder) (s : MCPServer.t)
    (lines : list string) (scanErr : option string) : list output :=
  (Run_loop orders s lines
   ++ match scanErr with
      | Some err => [LogPrintf ("Scanner error: " +:+ err)]
      | None => []
      end)%list.


End Transport.

(** What reaches standard output, and what reaches the log. *)
Definition stdout (outs : list output) : list string :=
  omap (fun o => match o with Println line => Some line | LogPrintf _ => None end) outs.

Definition logged (outs : list output) : list string :=
  omap (fun o => match o with LogPrintf message => Some message | Println _ => None end) outs.

(** ** Observations on responses *)

(** A response shaped like one of the two literals, for the id of [req]. *)
Definition shaped (req : JSONRPCRequest.t) (resp : JSONRPCResponse.t) : Prop :=
  (exists code message, resp = failure (JSONRPCRequest.ID req) code message)
  \/ (exists result, resp = success (JSONRPCRequest.ID req) result).

(** [resp.Error.Code] and [resp.Error.Message] of a failure. *)
Definition errorCode (resp : JSONRPCResponse.t) : option Z :=
  JSONRPCError.Code <$> JSONRPCResponse.Error resp.

Definition errorMessage (resp : JSONRPCResponse.t) : option string :=
  JSONRPCError.Message <$> JSONRPCResponse.Error resp.

(** [resp.Result[k]] when the result is an object holding [k]. *)
Definition resultField (k : string) (resp : JSONRPCResponse.t) : option any :=
  match JSONRPCResponse.Result resp with
  | AMap m => m !! k
  | _ => None
  end.

(** The names listed by a [tools/list] result, in order. *)
Definition listedToolNames (resp : JSONRPCResponse.t) : option (list string) :=
  match resultField "tools" resp with
  | Some (ATools l) => Some (Tool.Name <$> l)
  | _ => None
  end.

(** The payloads of the tool executor. *)
Definition echoPayload (message : string) : gmap string any :=
  {[ "content" := AMaps
       [ {[ "type" := AString "text"; "text" := AString ("Echo: " +:+ message) ]} ] ]}.

Definition errorPayload (message : string) : gmap string any :=
  {[ "error" := AString message ]}.

(** The result of a successful [resources/read]. *)
Definition contentsPayload (uri mimeType text : string) : gmap string any :=
  {[ "contents" := AMaps
       [ {[ "uri" := AString uri;
            "mimeType" := AString mimeType;
            "text" := AString text ]} ] ]}.

(** The capability advertisement of [initialize]. *)
Definition advertisement (name version : string) : gmap string any :=
  {[ "protocolVersion" := AString "2024-11-05";
     "capabilities" := AMap
       {[ "tools" := AMap {[ "listChanged" := ABool true ]};
          "resources" := AMap {[ "subscribe" := ABool true;
                                 "listChanged" := ABool true ]} ]};
     "serverInfo" := AMap
       {[ "name" := AString name; "version" := AString version ]} ]}.

(** The invariant registration maintains: every entry is stored under its
    own key. *)
Definition keyed (s : MCPServer.t) : Prop :=
  (forall k tool, MCPServer.tools s !! k = Some tool -> Tool.Name tool = k)
  /\ (forall k r, MCPServer.resources s !! k = Some r -> Resource.URI r = k).

(** ** Inputs used to evaluate the handlers *)

Definition noOrder : RangeOrder :=
  {| toolsOrder := []; resourcesOrder := [] |}.

Definition emptyServer : MCPServer.t := Server.NewMCPServer "srv" "0.1".

(** [{"jsonrpc":"1.0","id":1,"method":"initialize"}] *)
Definition reqOldVersion : JSONRPCRequest.t :=
  {| JSONRPCRequest.JSONRPC := "1.0";
     JSONRPCRequest.ID := ANumber 1%float;
     JSONRPCRequest.Method := "initialize";
     JSONRPCRequest.Params := ANil |}.

(** [{"jsonrpc":"2.0","id":"a","method":"initialize"}] *)
Definition reqInitialize : JSONRPCRequest.t :=
  {| JSONRPCRequest.JSONRPC := "2.0";
     JSONRPCRequest.ID := AString "a";
     JSONRPCRequest.Method := "initialize";
     JSONRPCRequest.Params := ANil |}.

(** [{"jsonrpc":"2.0","id":2,"method":"tools/list"}] *)
Definition reqToolsList : JSONRPCRequest.t :=
  {| JSONRPCRequest.JSONRPC := "2.0";
     JSONRPCRequest.ID := ANumber 2%float;
     JSONRPCRequest.Method := "tools/list";
     JSONRPCRequest.Params := ANil |}.

(** [{"jsonrpc":"2.0","id":3,"method":"tools/call","params":{"name":name,"arguments":arguments}}] *)
Definition reqToolsCall (name : string) (arguments : any) : JSONRPCRequest.t :=
  {| JSONRPCRequest.JSONRPC := "2.0";
     JSONRPCRequest.ID := ANumber 3%float;
     JSONRPCRequest.Method := "tools/call";
     JSONRPCRequest.Params :=
       AMap {[ "name" := AString name; "arguments" := arguments ]} |}.

(** [{"jsonrpc":"2.0","id":4,"method":"resources/read","params":{"uri":uri}}] *)
Definition reqResourcesRead (uri : string) : JSONRPCRequest.t :=
  {| JSONRPCRequest.JSONRPC := "2.0";
     JSONRPCRequest.ID := ANumber 4%float;
     JSONRPCRequest.Method := "resources/read";
     JSONRPCRequest.Params := AMap {[ "uri" := AString uri ]} |}.

(** A registry with two tools, [A] and [B], and the two visits a [range]
    over it can make. *)
Definition toolA : Tool.t any :=
  {| Tool.Name := "A"; Tool.Description := "first"; Tool.InputSchema := ANil |}.

Definition toolB : Tool.t any :=
  {| Tool.Name := "B"; Tool.Description := "second"; Tool.InputSchema := ANil |}.

Definition twoTools : MCPServer.t :=
  Server.RegisterTool toolB (Server.RegisterTool toolA (Server.NewMCPServer "srv" "0.1")).

Definition orderAB : RangeOrder :=
  {| toolsOrder := [("A", toolA); ("B", toolB)]; resourcesOrder := [] |}.

Definition orderBA : RangeOrder :=
  {| toolsOrder := [("B", toolB); ("A", toolA)]; resourcesOrder := [] |}.

(** A request without params, and one for a method the server does not
    have. *)
Definition reqNoParams (method : string) : JSONRPCRequest.t :=
  {| JSONRPCRequest.JSONRPC := "2.0";
     JSONRPCRequest.ID := ANumber 5%float;
     JSONRPCRequest.Method := method;
     JSONRPCRequest.Params := ANil |}.

(** A second tool and resource, for registration. *)
Definition sumTool : Tool.t any :=
  {| Tool.Name := "sum"; Tool.Description := "Add numbers"; Tool.InputSchema := ANil |}.

Definition otherEcho : Tool.t any :=
  {| Tool.Name := "echo"; Tool.Description := "Replacement"; Tool.InputSchema := ANil |}.

Definition notesResource : Resource.t :=
  {| Resource.URI := "file:///notes.txt";
     Resource.Name := "Notes";
     Resource.Description := "Some notes";
     Resource.MimeType := "text/plain" |}.

(** Stand-ins for the library functions of the transport loop: a line is
    blank when it is one space, only the line [init] parses, and every
    response serialises to [{}]. *)
Definition toyTrimSpace (line : string) : string :=
  if String.eqb line " " then "" else line.

Definition toyUnmarshal (line : string) : string + JSONRPCRequest.t :=
  if String.eqb line "init" then inr reqInitialize else inl "invalid character".

Definition toyMarshal (resp : JSONRPCResponse.t) : string + string := inr "{}".

Definition sameOrder (ro : RangeOrder) : nat -> RangeOrder := fun _ => ro.

(** * Properties *)

(** ** [strings.HasPrefix] *)

Lemma HasPrefix_empty (s : string) : HasPrefix s "" = true.
Proof. unfold HasPrefix. by destruct s. Qed.

Lemma HasPrefix_nil (c : ascii) (p : string) : HasPrefix "" (String c p) = false.
Proof. reflexivity. Qed.

Lemma HasPrefix_cons (a c : ascii) (s p : string) :
  HasPrefix (String a s) (String c p) = Ascii.eqb a c && HasPrefix s p.
Proof.
  unfold HasPrefix. cbn [String.length String.substring String.eqb].
  change (S (String.length p) <=? S (String.length s))%nat
    with (String.length p <=? String.length s)%nat.
  destruct (Ascii.eqb a c), (String.length p <=? String.length s)%nat; reflexivity.
Qed.

(** [HasPrefix s p] holds exactly when [s] is [p] followed by something. *)
Lemma HasPrefix_spec (s p : string) :
  HasPrefix s p = true <-> exists rest, s = p +:+ rest.
Proof.
  revert s. induction p as [|c p IH]; intros s.
  - rewrite HasPrefix_empty. split; [by exists s | done].
  - destruct s as [|a s].
    + rewrite HasPrefix_nil. split; [done | by intros [rest Hrest]].
    + rewrite HasPrefix_cons, andb_true_iff, Ascii.eqb_eq, IH. split.
      * intros [-> [rest ->]]. by exists rest.
      * intros [rest Hrest]. injection Hrest as -> ->. split; [done | by exists rest].
Qed.

Lemma HasPrefix_app (p rest : string) : HasPrefix (p +:+ rest) p = true.
Proof. apply HasPrefix_spec. by exists rest. Qed.

(** ** The two response literals *)

Lemma failure_outcome (id : any) (code : Z) (message : string) :
  JSONRPCResponse.ID (failure id code message) = id
  /\ isFailure (failure id code message)
  /\ ~ hasResult (failure id code message).
Proof.
  unfold isFailure, hasResult, hasError. cbn.
  split; [done | split; [split |]]; [done | discriminate | by intros H].
Qed.

Lemma success_outcome (id : any) (result : gmap string any) :
  JSONRPCResponse.ID (success id result) = id
  /\ isResult (success id result)
  /\ ~ hasError (success id result).
Proof.
  unfold isResult, hasResult, hasError. cbn.
  split; [done | split; [split |]]; [discriminate | done | by intros H].
Qed.

(** Every branch of a handler ends in one of the two literals. *)
Ltac shape_tac :=
  repeat case_match;
  first [ left; eexists _, _; reflexivity | right; eexists; reflexivity ].

Section Shapes.
Variables (ro : RangeOrder) (s : MCPServer.t) (req : JSONRPCRequest.t).

Lemma handleInitialize_shaped : shaped req (Server.handleInitialize s req).
Proof. unfold Server.handleInitialize. shape_tac. Qed.

Lemma handleToolsList_shaped : shaped req (Server.handleToolsList (toolsOrder ro) s req).
Proof. unfold Server.handleToolsList. shape_tac. Qed.

Lemma handleToolsCall_shaped : shaped req (Server.handleToolsCall s req).
Proof. unfold Server.handleToolsCall. shape_tac. Qed.

Lemma handleResourcesList_shaped :
  shaped req (Server.handleResourcesList (resourcesOrder ro) s req).
Proof. unfold Server.handleResourcesList. shape_tac. Qed.

Lemma handleResourcesRead_shaped : shaped req (Server.handleResourcesRead s req).
Proof. unfold Server.handleResourcesRead. shape_tac. Qed.

Lemma HandleRequest_shaped : shaped req (Server.HandleRequest ro s req).
Proof.
  unfold Server.HandleRequest.
  repeat case_match;
    auto using handleInitialize_shaped, handleToolsList_shaped, handleToolsCall_shaped,
      handleResourcesList_shaped, handleResourcesRead_shaped.
  all: left; eexists _, _; reflexivity.
Qed.
End Shapes.

(** ** Routing *)

Section Routing.
Variables (ro : RangeOrder) (s : MCPServer.t) (req : JSONRPCRequest.t).

Lemma HandleRequest_bad_version :
  JSONRPCRequest.JSONRPC req <> "2.0" ->
  Server.HandleRequest ro s req
  = failure (JSONRPCRequest.ID req) (-32600) "Invalid JSON-RPC version".
Proof.
  intros Hv. unfold Server.HandleRequest.
  destruct (String.eqb_spec (JSONRPCRequest.JSONRPC req) "2.0"); [done | reflexivity].
Qed.

Hypothesis Hversion : JSONRPCRequest.JSONRPC req = "2.0".

Lemma HandleRequest_initialize :
  JSONRPCRequest.Method req = "initialize" ->
  Server.HandleRequest ro s req = Server.handleInitialize s req.
Proof. intros Hm. unfold Server.HandleRequest. by rewrite Hversion, Hm. Qed.

Lemma HandleRequest_tools_list :
  JSONRPCRequest.Method req = "tools/list" ->
  Server.HandleRequest ro s req = Server.handleToolsList (toolsOrder ro) s req.
Proof. intros Hm. unfold Server.HandleRequest. by rewrite Hversion, Hm. Qed.

Lemma HandleRequest_tools_call :
  JSONRPCRequest.Method req = "tools/call" ->
  Server.HandleRequest ro s req = Server.handleToolsCall s req.
Proof. intros Hm. unfold Server.HandleRequest. by rewrite Hversion, Hm. Qed.

Lemma HandleRequest_resources_list :
  JSONRPCRequest.Method req = "resources/list" ->
  Server.HandleRequest ro s req = Server.handleResourcesList (resourcesOrder ro) s req.
Proof. intros Hm. unfold Server.HandleRequest. by rewrite Hversion, Hm. Qed.

Lemma HandleRequest_resources_read :
  JSONRPCRequest.Method req = "resources/read" ->
  Server.HandleRequest ro s req = Server.handleResourcesRead s req.
Proof. intros Hm. unfold Server.HandleRequest. by rewrite Hversion, Hm. Qed.

Lemma HandleRequest_unknown_method :
  JSONRPCRequest.Method req <> "initialize" ->
  JSONRPCRequest.Method req <> "tools/list" ->
  JSONRPCRequest.Method req <> "tools/call" ->
  JSONRPCRequest.Method req <> "resources/list" ->
  JSONRPCRequest.Method req <> "resources/read" ->
  Server.HandleRequest ro s req
  = failure (JSONRPCRequest.ID req) (-32601) "Method not found".
Proof.
  intros H1 H2 H3 H4 H5. unfold Server.HandleRequest. rewrite Hversion. cbn [negb String.eqb].
  repeat match goal with
  | |- context [String.eqb ?a ?b] => destruct (String.eqb_spec a b); [done |]
  end.
  reflexivity.
Qed.
End Routing.

(** ** The protocol version check *)

(** C4, as stated, fails: a request with [jsonrpc = "1.0"] is answered with
    code -32600 but the message is not ["Invalid Request"]. *)
Lemma bad_version_message_is_not_invalid_request :
  JSONRPCRequest.JSONRPC reqOldVersion <> "2.0"
  /\ errorCode (Server.HandleRequest noOrder emptyServer reqOldVersion) = Some (-32600)
  /\ errorMessage (Server.HandleRequest noOrder emptyServer reqOldVersion)
     <> Some "Invalid Request".
Proof. split; [discriminate | split; [reflexivity | discriminate]]. Qed.

(** C4 (amended): for every request whose [jsonrpc] field is not the literal
    ["2.0"], the dispatcher returns the failure with code -32600 and message
    ["Invalid JSON-RPC version"], echoing the id; the response does not
    depend on the method, the params, the registry or the iteration order,
    so no handler is involved.  The dispatcher of the draft does the same. *)
Theorem bad_version_rejected (ro : RangeOrder) (s : MCPServer.t) (req : JSONRPCRequest.t) :
  JSONRPCRequest.JSONRPC req <> "2.0" ->
  Server.HandleRequest ro s req
  = failure (JSONRPCRequest.ID req) (-32600) "Invalid JSON-RPC version"
  /\ Draft.hadlerRequest ro s req
     = Some (failure (JSONRPCRequest.ID req) (-32600) "Invalid JSON-RPC version")
  /\ isFailure (Server.HandleRequest ro s req)
  /\ errorCode (Server.HandleRequest ro s req) = Some (-32600)
  /\ errorMessage (Server.HandleRequest ro s req) = Some "Invalid JSON-RPC version".
Proof.
  intros Hv. rewrite HandleRequest_bad_version by done.
  split; [done |]. split.
  - unfold Draft.hadlerRequest.
    destruct (String.eqb_spec (JSONRPCRequest.JSONRPC req) "2.0"); [done | reflexivity].
  - split; [apply failure_outcome | done].
Qed.

Lemma bad_version_rejected_witness :
  Server.HandleRequest noOrder emptyServer reqOldVersion
  = failure (ANumber 1%float) (-32600) "Invalid JSON-RPC version".
Proof.
  apply (bad_version_rejected noOrder emptyServer reqOldVersion).
  discriminate.
Defined.

(** ** Shape of every response *)

(** C9: whatever the request, the registry and the iteration orders, the
    dispatcher's response carries the request's id unchanged and exactly one
    of the two outcome branches: a result or an error is present, never
    both. *)
Theorem response_echoes_id_with_one_outcome
    (ro : RangeOrder) (s : MCPServer.t) (req : JSONRPCRequest.t) :
  JSONRPCResponse.ID (Server.HandleRequest ro s req) = JSONRPCRequest.ID req
  /\ (hasResult (Server.HandleRequest ro s req) \/ hasError (Server.HandleRequest ro s req))
  /\ ~ (hasResult (Server.HandleRequest ro s req) /\ hasError (Server.HandleRequest ro s req)).
Proof.
  destruct (HandleRequest_shaped ro s req) as [(code & message & ->) | (result & ->)].
  - destruct (failure_outcome (JSONRPCRequest.ID req) code message) as (Hid & [_ He] & Hr).
    split; [done |]. split; [by right | by intros [? _]].
  - destruct (success_outcome (JSONRPCRequest.ID req) result) as (Hid & [Hr _] & He).
    split; [done |]. split; [by left | by intros [_ ?]].
Qed.

(** ** The tool executor *)

Section Executor.
Variable s : MCPServer.t.

Lemma executeTool_echo_ok (args : gmap string any) (message : string) :
  args !! "message" = Some (AString message) ->
  Server.executeTool s "echo" (AMap args) = echoPayload message.
Proof. intros Hm. unfold Server.executeTool, index. cbn. by rewrite Hm. Qed.

Lemma executeTool_echo_not_object (arguments : any) :
  assertMap arguments = None ->
  Server.executeTool s "echo" arguments = errorPayload "Invalid arguments".
Proof. intros Ha. unfold Server.executeTool. cbn. by rewrite Ha. Qed.

Lemma executeTool_echo_no_message (args : gmap string any) :
  assertString (index args "message") = None ->
  Server.executeTool s "echo" (AMap args) = errorPayload "Message is required".
Proof. intros Hm. unfold Server.executeTool. cbn. by rewrite Hm. Qed.

Lemma executeTool_other (toolName : string) (arguments : any) :
  toolName <> "echo" ->
  Server.executeTool s toolName arguments = errorPayload "Unknown tool".
Proof.
  intros Hn. unfold Server.executeTool.
  destruct (String.eqb_spec toolName "echo"); [done | reflexivity].
Qed.

(** Every payload of the executor is the echo content or an embedded,
    non-empty error message. *)
Lemma executeTool_payload (toolName : string) (arguments : any) :
  (exists message, Server.executeTool s toolName arguments = echoPayload message)
  \/ (exists e, e <> "" /\ Server.executeTool s toolName arguments = errorPayload e).
Proof.
  unfold Server.executeTool. repeat case_match;
    first [ left; eexists; reflexivity
          | right; eexists; split; [| reflexivity]; discriminate ].
Qed.
End Executor.

(** ** [tools/call] *)

Section ToolsCall.
Variables (s : MCPServer.t) (req : JSONRPCRequest.t).
Variables (params : gmap string any) (toolName : string).
Hypothesis Hparams : JSONRPCRequest.Params req = AMap params.
Hypothesis Hname : index params "name" = AString toolName.

Lemma handleToolsCall_registered (tool : Tool.t any) :
  MCPServer.tools s !! toolName = Some tool ->
  Server.handleToolsCall s req
  = success (JSONRPCRequest.ID req)
      (Server.executeTool s toolName (index params "arguments")).
Proof.
  intros Ht. unfold Server.handleToolsCall.
  rewrite Hparams. cbn [assertMap]. rewrite Hname. cbn [assertString]. by rewrite Ht.
Qed.

Lemma handleToolsCall_not_registered :
  MCPServer.tools s !! toolName = None ->
  Server.handleToolsCall s req
  = failure (JSONRPCRequest.ID req) (-32601) "Tool not found".
Proof.
  intros Ht. unfold Server.handleToolsCall.
  rewrite Hparams. cbn [assertMap]. rewrite Hname. cbn [assertString]. by rewrite Ht.
Qed.

Lemma draft_handleToolsCall_not_registered :
  MCPServer.tools s !! toolName = None ->
  Draft.handleToolsCall s req
  = failure (JSONRPCRequest.ID req) (-326001) "Tool not found".
Proof.
  intros Ht. unfold Draft.handleToolsCall.
  rewrite Hparams. cbn [assertMap]. rewrite Hname. cbn [assertString]. by rewrite Ht.
Qed.
End ToolsCall.

(** C1: a [tools/call] whose params are an object naming a registered tool
    is answered with a result and no error; the result is the executor's
    payload, which is either the echo content or an object with an [error]
    field.  Routed through the dispatcher the response is the same. *)
Theorem registered_tool_call_is_result
    (s : MCPServer.t) (req : JSONRPCRequest.t)
    (params : gmap string any) (toolName : string) (tool : Tool.t any) :
  JSONRPCRequest.Params req = AMap params ->
  index params "name" = AString toolName ->
  MCPServer.tools s !! toolName = Some tool ->
  isResult (Server.handleToolsCall s req)
  /\ ~ hasError (Server.handleToolsCall s req)
  /\ (exists payload,
        Server.handleToolsCall s req = success (JSONRPCRequest.ID req) payload
        /\ payload = Server.executeTool s toolName (index params "arguments")
        /\ ((exists message, payload = echoPayload message)
            \/ (exists e, e <> "" /\ payload = errorPayload e)))
  /\ (forall ro,
        JSONRPCRequest.JSONRPC req = "2.0" ->
        JSONRPCRequest.Method req = "tools/call" ->
        Server.HandleRequest ro s req = Server.handleToolsCall s req).
Proof.
  intros Hp Hn Ht.
  rewrite (handleToolsCall_registered s req params toolName Hp Hn tool Ht).
  split; [apply success_outcome |]. split; [apply success_outcome |]. split.
  - eexists. split; [reflexivity |]. split; [reflexivity |]. apply executeTool_payload.
  - intros ro Hv Hm. rewrite HandleRequest_tools_call by done.
    by rewrite (handleToolsCall_registered s req params toolName Hp Hn tool Ht).
Qed.

(** [echo] called with [arguments = {}] on the registry of [main]: a result
    holding [{error: "Message is required"}]. *)
Lemma registered_tool_call_is_result_witness :
  isResult (Server.handleToolsCall Server.mainServer (reqToolsCall "echo" (AMap ∅)))
  /\ Server.handleToolsCall Server.mainServer (reqToolsCall "echo" (AMap ∅))
     = success (ANumber 3%float) (errorPayload "Message is required").
Proof.
  split.
  - apply (registered_tool_call_is_result Server.mainServer
             (reqToolsCall "echo" (AMap ∅))
             {[ "name" := AString "echo"; "arguments" := AMap ∅ ]}
             "echo" Server.echoTool); reflexivity.
  - reflexivity.
Defined.

(** In the server, an unregistered tool name and an unknown method get the
    same reserved code. *)
Lemma tool_not_found_uses_method_not_found_code
    (ro : RangeOrder) (s : MCPServer.t) (req req' : JSONRPCRequest.t)
    (params : gmap string any) (toolName : string) :
  JSONRPCRequest.Params req = AMap params ->
  index params "name" = AString toolName ->
  MCPServer.tools s !! toolName = None ->
  JSONRPCRequest.JSONRPC req' = "2.0" ->
  JSONRPCRequest.Method req' = "no/such/method" ->
  errorCode (Server.handleToolsCall s req) = Some (-32601)
  /\ errorMessage (Server.handleToolsCall s req) = Some "Tool not found"
  /\ errorCode (Server.handleToolsCall s req) = errorCode (Server.HandleRequest ro s req').
Proof.
  intros Hp Hn Ht Hv Hm.
  rewrite (handleToolsCall_not_registered s req params toolName Hp Hn Ht).
  rewrite HandleRequest_unknown_method by (try done; rewrite Hm; discriminate).
  done.
Qed.

(** C2, on the draft: for a [tools/call] whose params are an object with a
    string name that is not a key of the registry, the draft's handler
    answers with message ["Tool not found"] but with code -326001, not the
    reserved -32601 that the server's handler returns for the same
    request. *)
Theorem draft_tool_not_found_code
    (s : MCPServer.t) (req : JSONRPCRequest.t)
    (params : gmap string any) (toolName : string) :
  JSONRPCRequest.Params req = AMap params ->
  index params "name" = AString toolName ->
  MCPServer.tools s !! toolName = None ->
  Draft.handleToolsCall s req = failure (JSONRPCRequest.ID req) (-326001) "Tool not found"
  /\ errorCode (Draft.handleToolsCall s req) <> Some (-32601)
  /\ Server.handleToolsCall s req = failure (JSONRPCRequest.ID req) (-32601) "Tool not found".
Proof.
  intros Hp Hn Ht.
  rewrite (draft_handleToolsCall_not_registered s req params toolName Hp Hn Ht).
  rewrite (handleToolsCall_not_registered s req params toolName Hp Hn Ht).
  split; [done | split; [discriminate | done]].
Qed.

Lemma draft_tool_not_found_code_witness :
  Draft.handleToolsCall emptyServer (reqToolsCall "nope" ANil)
  = failure (ANumber 3%float) (-326001) "Tool not found".
Proof.
  apply (draft_tool_not_found_code emptyServer (reqToolsCall "nope" ANil)
           {[ "name" := AString "nope"; "arguments" := ANil ]} "nope"); reflexivity.
Defined.

(** ** [initialize] *)

(** The server's handler returns the advertisement, whatever the request. *)
Lemma handleInitialize_advertisement (s : MCPServer.t) (req : JSONRPCRequest.t) :
  Server.handleInitialize s req
  = success (JSONRPCRequest.ID req)
      (advertisement (MCPServer.name s) (MCPServer.version s)).
Proof. reflexivity. Qed.

(** Its result depends on the server's name and version only. *)
Lemma handleInitialize_deterministic (s s' : MCPServer.t) (req req' : JSONRPCRequest.t) :
  MCPServer.name s = MCPServer.name s' ->
  MCPServer.version s = MCPServer.version s' ->
  JSONRPCResponse.Result (Server.handleInitialize s req)
  = JSONRPCResponse.Result (Server.handleInitialize s' req').
Proof. intros Hn Hv. rewrite !handleInitialize_advertisement. cbn. by rewrite Hn, Hv. Qed.

(** C5, on the draft: the draft's [initialize] advertises its resource
    capabilities under the key ["resource"]; its [capabilities] object has
    no ["resources"] entry, so its result is not the advertisement, which
    the server's handler returns exactly. *)
Theorem draft_initialize_capability_key (s : MCPServer.t) (req : JSONRPCRequest.t) :
  (exists caps,
     resultField "capabilities" (Draft.handleInitialize s req) = Some (AMap caps)
     /\ caps !! "resources" = None
     /\ caps !! "resource"
        = Some (AMap {[ "subscribe" := ABool true; "listChanged" := ABool true ]}))
  /\ JSONRPCResponse.Result (Draft.handleInitialize s req)
     <> AMap (advertisement (MCPServer.name s) (MCPServer.version s))
  /\ JSONRPCResponse.Result (Server.handleInitialize s req)
     = AMap (advertisement (MCPServer.name s) (MCPServer.version s)).
Proof.
  split; [| split].
  - eexists. split; [reflexivity |]. split; reflexivity.
  - intros Heq.
    assert (Hcaps : resultField "capabilities" (Draft.handleInitialize s req)
                    = advertisement (MCPServer.name s) (MCPServer.version s)
                        !! "capabilities").
    { unfold resultField. by rewrite Heq. }
    vm_compute in Hcaps. discriminate Hcaps.
  - reflexivity.
Qed.

(** ** The reference tool [echo] *)

Lemma assertString_index_None (args : gmap string any) (k : string) :
  assertString (index args k) = None
  <-> forall message, args !! k <> Some (AString message).
Proof.
  unfold index. split.
  - intros Ha message Hm. by rewrite Hm in Ha.
  - intros Hm. destruct (args !! k) as [[]|] eqn:E; try done.
    by destruct (Hm s).
Qed.

(** C6: [echo] on an object with a string field [message] returns
    [{content: [{type: "text", text: "Echo: " + message}]}]; on arguments
    that are not an object, or whose [message] is missing or not a string,
    it returns [{error: e}] with a non-empty message [e]; and when [echo] is
    registered, [tools/call] wraps either payload in a result. *)
Theorem echo_contract (s : MCPServer.t) (arguments : any) :
  (forall args message,
     arguments = AMap args ->
     args !! "message" = Some (AString message) ->
     Server.executeTool s "echo" arguments
     = {[ "content" := AMaps
            [ {[ "type" := AString "text";
                 "text" := AString ("Echo: " +:+ message) ]} ] ]})
  /\ ((forall args, arguments <> AMap args) ->
      exists e, e <> "" /\ Server.executeTool s "echo" arguments = {[ "error" := AString e ]})
  /\ (forall args,
        arguments = AMap args ->
        (forall message, args !! "message" <> Some (AString message)) ->
        exists e, e <> "" /\ Server.executeTool s "echo" arguments = {[ "error" := AString e ]})
  /\ (forall req params tool,
        JSONRPCRequest.Params req = AMap params ->
        index params "name" = AString "echo" ->
        index params "arguments" = arguments ->
        MCPServer.tools s !! "echo" = Some tool ->
        Server.handleToolsCall s req
        = success (JSONRPCRequest.ID req) (Server.executeTool s "echo" arguments)
        /\ isResult (Server.handleToolsCall s req)).
Proof.
  split; [| split; [| split]].
  - intros args message -> Hm. by apply executeTool_echo_ok.
  - intros Hno. exists "Invalid arguments". split; [discriminate |].
    apply executeTool_echo_not_object. destruct arguments; try done. by destruct (Hno m).
  - intros args -> Hm. exists "Message is required". split; [discriminate |].
    apply executeTool_echo_no_message. by apply assertString_index_None.
  - intros req params tool Hp Hn <- Ht.
    rewrite (handleToolsCall_registered s req params "echo" Hp Hn tool Ht).
    split; [done | apply success_outcome].
Qed.

(** [echo] with [arguments = {message: "hi"}]: the text is ["Echo: hi"]. *)
Lemma echo_contract_witness :
  Server.executeTool Server.mainServer "echo" (AMap {[ "message" := AString "hi" ]})
  = {[ "content" := AMaps [ {[ "type" := AString "text"; "text" := AString "Echo: hi" ]} ] ]}.
Proof.
  apply (proj1 (echo_contract Server.mainServer (AMap {[ "message" := AString "hi" ]}))
           {[ "message" := AString "hi" ]} "hi"); reflexivity.
Defined.

(** ** [resources/read] *)

Section ResourcesRead.
Variables (s : MCPServer.t) (req : JSONRPCRequest.t).
Variables (params : gmap string any) (uri : string).
Hypothesis Hparams : JSONRPCRequest.Params req = AMap params.
Hypothesis Huri : index params "uri" = AString uri.

Lemma handleResourcesRead_bad_scheme :
  HasPrefix uri "file://" = false ->
  HasPrefix uri "https://" = false ->
  Server.handleResourcesRead s req
  = failure (JSONRPCRequest.ID req) (-32602) "Invalid URI scheme".
Proof.
  intros Hf Hh. unfold Server.handleResourcesRead.
  rewrite Hparams. cbn [assertMap]. rewrite Huri. cbn [assertString].
  by rewrite Hf, Hh.
Qed.

Lemma handleResourcesRead_allowed :
  HasPrefix uri "file://" || HasPrefix uri "https://" = true ->
  Server.handleResourcesRead s req
  = success (JSONRPCRequest.ID req)
      (contentsPayload uri "text/plain" (Server.readResource s uri)).
Proof.
  intros Hok. unfold Server.handleResourcesRead.
  rewrite Hparams. cbn [assertMap]. rewrite Huri. cbn [assertString].
  by destruct (HasPrefix uri "file://"), (HasPrefix uri "https://").
Qed.
End ResourcesRead.

(** The reader on an allowed prefix: a placeholder naming the uri. *)
Lemma readResource_allowed (s : MCPServer.t) (uri : string) :
  HasPrefix uri "file://" || HasPrefix uri "https://" = true ->
  Server.readResource s uri <> ""
  /\ (Server.readResource s uri = "Content of " +:+ uri
      \/ Server.readResource s uri = "Web content of " +:+ uri).
Proof.
  intros Hok. unfold Server.readResource.
  destruct (HasPrefix uri "file://"); [split; [discriminate | by left] |].
  destruct (HasPrefix uri "https://"); [split; [discriminate | by right] |].
  discriminate.
Qed.

(** The reader never looks at the server. *)
Lemma readResource_ignores_server (s s' : MCPServer.t) (uri : string) :
  Server.readResource s uri = Server.readResource s' uri.
Proof. reflexivity. Qed.

Lemma handleResourcesRead_ignores_server (s s' : MCPServer.t) (req : JSONRPCRequest.t) :
  Server.handleResourcesRead s req = Server.handleResourcesRead s' req.
Proof. reflexivity. Qed.

(** C7: a [resources/read] whose params are an object with a string [uri]
    that starts neither with ["file://"] nor with ["https://"] is answered
    with the failure -32602 ["Invalid URI scheme"], also through the
    dispatcher. *)
Theorem invalid_uri_scheme_rejected
    (s : MCPServer.t) (req : JSONRPCRequest.t) (params : gmap string any) (uri : string) :
  JSONRPCRequest.Params req = AMap params ->
  index params "uri" = AString uri ->
  HasPrefix uri "file://" = false ->
  HasPrefix uri "https://" = false ->
  Server.handleResourcesRead s req
  = failure (JSONRPCRequest.ID req) (-32602) "Invalid URI scheme"
  /\ isFailure (Server.handleResourcesRead s req)
  /\ (forall ro,
        JSONRPCRequest.JSONRPC req = "2.0" ->
        JSONRPCRequest.Method req = "resources/read" ->
        Server.HandleRequest ro s req
        = failure (JSONRPCRequest.ID req) (-32602) "Invalid URI scheme").
Proof.
  intros Hp Hu Hf Hh.
  pose proof (handleResourcesRead_bad_scheme s req params uri Hp Hu Hf Hh) as Hr.
  split; [done |]. split.
  - rewrite Hr. apply failure_outcome.
  - intros ro Hv Hm. by rewrite HandleRequest_resources_read.
Qed.

(** [uri = "ftp://x"] *)
Lemma invalid_uri_scheme_rejected_witness :
  Server.handleResourcesRead Server.mainServer (reqResourcesRead "ftp://x")
  = failure (ANumber 4%float) (-32602) "Invalid URI scheme".
Proof.
  apply (invalid_uri_scheme_rejected Server.mainServer (reqResourcesRead "ftp://x")
           {[ "uri" := AString "ftp://x" ]} "ftp://x"); reflexivity.
Defined.

(** C8: a [resources/read] whose params are an object with a string [uri]
    starting with ["file://"] or ["https://"] is answered with the result
    [{contents: [{uri, mimeType: "text/plain", text}]}]: one entry, carrying
    the request's uri and the reader's non-empty text; the dispatcher routes
    to it. *)
Theorem allowed_uri_read_contents
    (s : MCPServer.t) (req : JSONRPCRequest.t) (params : gmap string any) (uri : string) :
  JSONRPCRequest.Params req = AMap params ->
  index params "uri" = AString uri ->
  HasPrefix uri "file://" || HasPrefix uri "https://" = true ->
  exists text,
    Server.handleResourcesRead s req
    = success (JSONRPCRequest.ID req)
        {[ "contents" := AMaps
             [ {[ "uri" := AString uri;
                  "mimeType" := AString "text/plain";
                  "text" := AString text ]} ] ]}
    /\ text = Server.readResource s uri
    /\ text <> ""
    /\ isResult (Server.handleResourcesRead s req)
    /\ (forall ro,
          JSONRPCRequest.JSONRPC req = "2.0" ->
          JSONRPCRequest.Method req = "resources/read" ->
          Server.HandleRequest ro s req = Server.handleResourcesRead s req).
Proof.
  intros Hp Hu Hok. exists (Server.readResource s uri).
  pose proof (handleResourcesRead_allowed s req params uri Hp Hu Hok) as Hr.
  split; [exact Hr |]. split; [done |].
  split; [by apply readResource_allowed |]. split.
  - rewrite Hr. apply success_outcome.
  - intros ro Hv Hm. by apply HandleRequest_resources_read.
Qed.

(** [uri = "file:///a.txt"] *)
Lemma allowed_uri_read_contents_witness :
  exists text,
    Server.handleResourcesRead Server.mainServer (reqResourcesRead "file:///a.txt")
    = success (ANumber 4%float)
        {[ "contents" := AMaps
             [ {[ "uri" := AString "file:///a.txt";
                  "mimeType" := AString "text/plain";
                  "text" := AString text ]} ] ]}
    /\ text = "Content of file:///a.txt"
    /\ text <> "".
Proof.
  destruct (allowed_uri_read_contents Server.mainServer (reqResourcesRead "file:///a.txt")
              {[ "uri" := AString "file:///a.txt" ]} "file:///a.txt"
              eq_refl eq_refl eq_refl) as (text & Hresp & Htext & Hne & _).
  exists text. split; [exact Hresp | split; [exact Htext | exact Hne]].
Defined.

(** C10: [resources/read] does not consult the registry.  For a string
    [uri] with an allowed prefix the response is the same for every two
    servers, in particular for one with nothing registered; it is a result,
    and its text is the reader's placeholder, a function of the uri alone
    that is never empty. *)
Theorem resources_read_ignores_registry
    (s s' : MCPServer.t) (req : JSONRPCRequest.t) (params : gmap string any) (uri : string) :
  JSONRPCRequest.Params req = AMap params ->
  index params "uri" = AString uri ->
  HasPrefix uri "file://" || HasPrefix uri "https://" = true ->
  Server.handleResourcesRead s req = Server.handleResourcesRead s' req
  /\ Server.handleResourcesRead s req
     = Server.handleResourcesRead
         (Server.NewMCPServer (MCPServer.name s) (MCPServer.version s)) req
  /\ isResult (Server.handleResourcesRead s req)
  /\ resultField "contents" (Server.handleResourcesRead s req)
     = Some (AMaps [ {[ "uri" := AString uri;
                        "mimeType" := AString "text/plain";
                        "text" := AString (Server.readResource s' uri) ]} ])
  /\ Server.readResource s uri = Server.readResource s' uri
  /\ Server.readResource s uri <> ""
  /\ (Server.readResource s uri = "Content of " +:+ uri
      \/ Server.readResource s uri = "Web content of " +:+ uri).
Proof.
  intros Hp Hu Hok.
  split; [apply handleResourcesRead_ignores_server |].
  split; [apply handleResourcesRead_ignores_server |].
  rewrite (handleResourcesRead_allowed s req params uri Hp Hu Hok).
  split; [apply success_outcome |].
  split; [reflexivity |].
  split; [apply readResource_ignores_server |].
  by apply readResource_allowed.
Qed.

(** An [https] uri that is not registered, read on the empty server and on
    the registry of [main]. *)
Lemma resources_read_ignores_registry_witness :
  Server.handleResourcesRead emptyServer (reqResourcesRead "https://example.com/x")
  = Server.handleResourcesRead Server.mainServer (reqResourcesRead "https://example.com/x")
  /\ isResult (Server.handleResourcesRead emptyServer (reqResourcesRead "https://example.com/x")).
Proof.
  destruct (resources_read_ignores_registry emptyServer Server.mainServer
              (reqResourcesRead "https://example.com/x")
              {[ "uri" := AString "https://example.com/x" ]} "https://example.com/x"
              eq_refl eq_refl eq_refl) as (Hsame & _ & Hres & _).
  split; [exact Hsame | exact Hres].
Defined.

(** ** Registration and the list methods *)

(** The loop of the list handlers: appending each visited value yields the
    values in visiting order. *)
Lemma range_append_values {V : Type} (order : list (string * V)) (acc : list V) :
  foldl (fun vs kv => (vs ++ [kv.2])%list) acc order = (acc ++ order.*2)%list.
Proof.
  revert acc. induction order as [|kv order IH]; intros acc; cbn.
  - by rewrite app_nil_r.
  - rewrite IH. by rewrite <- app_assoc.
Qed.

Lemma Setup_keyed (s : MCPServer.t) : Server.Setup s -> keyed s.
Proof.
  induction 1 as [name version | tool s _ [IHt IHr] | resource s _ [IHt IHr]].
  - split; intros k x; cbn; by rewrite lookup_empty.
  - split; [| exact IHr]. intros k x. cbn.
    rewrite lookup_insert_Some. intros [[<- <-] | [_ Hk]]; [done | by apply IHt].
  - split; [exact IHt |]. intros k x. cbn.
    rewrite lookup_insert_Some. intros [[<- <-] | [_ Hk]]; [done | by apply IHr].
Qed.

Section Enumeration.
Context {V : Type} (key : V -> string) (m : gmap string V).
Variable order : list (string * V).
Hypothesis Hkeyed : forall k v, m !! k = Some v -> key v = k.
Hypothesis Hrange : map_range m order.

Lemma range_lookup (k : string) (v : V) : (k, v) ∈ order <-> m !! k = Some v.
Proof. unfold map_range in Hrange. rewrite Hrange. apply elem_of_map_to_list. Qed.

Lemma range_keys : key <$> order.*2 = order.*1.
Proof.
  assert (Hall : forall kv, kv ∈ order -> key kv.2 = kv.1).
  { intros [k v] Hin. cbn. apply Hkeyed. by apply range_lookup. }
  clear Hrange. induction order as [|kv l IH]; [done |].
  cbn. f_equal.
  - apply Hall. by left.
  - apply IH. intros kv' Hin. apply Hall. by right.
Qed.

Lemma range_values_NoDup : NoDup (key <$> order.*2).
Proof.
  rewrite range_keys. unfold map_range in Hrange. rewrite Hrange.
  apply NoDup_fst_map_to_list.
Qed.

Lemma range_values_elem (v : V) : v ∈ order.*2 <-> m !! key v = Some v.
Proof.
  rewrite list_elem_of_fmap. split.
  - intros [[k v'] [-> Hin]]. cbn. apply range_lookup in Hin.
    by rewrite (Hkeyed _ _ Hin).
  - intros Hv. exists (key v, v). split; [done | by apply range_lookup].
Qed.

Lemma range_values_length : length order.*2 = size m.
Proof.
  rewrite length_fmap. unfold map_range in Hrange. rewrite Hrange.
  apply length_map_to_list.
Qed.
End Enumeration.

(** C3, as stated, fails: on the registry holding the tools [A] and [B],
    the loop may visit [A] first or [B] first, and the two [tools/list]
    responses differ. *)
Lemma tools_list_order_is_not_fixed :
  range_ok twoTools orderAB
  /\ range_ok twoTools orderBA
  /\ listedToolNames (Server.HandleRequest orderAB twoTools reqToolsList) = Some ["A"; "B"]
  /\ listedToolNames (Server.HandleRequest orderBA twoTools reqToolsList) = Some ["B"; "A"]
  /\ Server.HandleRequest orderAB twoTools reqToolsList
     <> Server.HandleRequest orderBA twoTools reqToolsList.
Proof.
  assert (Hlist : map_to_list (MCPServer.tools twoTools) ≡ₚ [("A", toolA); ("B", toolB)]).
  { unfold twoTools, Server.RegisterTool, Server.NewMCPServer. cbn [MCPServer.tools].
    rewrite map_to_list_insert by done.
    rewrite map_to_list_insert by done.
    rewrite map_to_list_empty. apply perm_swap. }
  split; [| split; [| split; [| split]]].
  - split; unfold map_range; cbn [toolsOrder resourcesOrder orderAB].
    + by rewrite Hlist.
    + reflexivity.
  - split; unfold map_range; cbn [toolsOrder resourcesOrder orderBA].
    + rewrite Hlist. apply perm_swap.
    + reflexivity.
  - reflexivity.
  - reflexivity.
  - intros Heq. apply (f_equal listedToolNames) in Heq. discriminate Heq.
Qed.

(** C3 (amended): on a registry built by registration, whatever order the
    two loops visit the maps in, [tools/list] returns the registered tools,
    each exactly once (the listed tools are those stored under their own
    name, their names are pairwise distinct and there are as many as the
    registry holds), and [resources/list] likewise returns the registered
    resources; the sequence follows the visiting order. *)
Theorem list_methods_enumerate_registry
    (ro : RangeOrder) (s : MCPServer.t) (req : JSONRPCRequest.t) :
  Server.Setup s ->
  range_ok s ro ->
  exists (tools : list (Tool.t any)) (resources : list Resource.t),
    Server.handleToolsList (toolsOrder ro) s req
    = success (JSONRPCRequest.ID req) {[ "tools" := ATools tools ]}
    /\ Server.handleResourcesList (resourcesOrder ro) s req
       = success (JSONRPCRequest.ID req) {[ "resources" := AResources resources ]}
    /\ tools = (toolsOrder ro).*2
    /\ resources = (resourcesOrder ro).*2
    /\ (forall tool, tool ∈ tools <-> MCPServer.tools s !! Tool.Name tool = Some tool)
    /\ NoDup (Tool.Name <$> tools)
    /\ length tools = size (MCPServer.tools s)
    /\ (forall r, r ∈ resources <-> MCPServer.resources s !! Resource.URI r = Some r)
    /\ NoDup (Resource.URI <$> resources)
    /\ length resources = size (MCPServer.resources s).
Proof.
  intros Hsetup [Htools Hresources].
  destruct (Setup_keyed s Hsetup) as [Hkt Hkr].
  exists (toolsOrder ro).*2, (resourcesOrder ro).*2.
  split; [unfold Server.handleToolsList; by rewrite range_append_values |].
  split; [unfold Server.handleResourcesList; by rewrite range_append_values |].
  split; [done |]. split; [done |].
  split; [intros tool; by apply range_values_elem |].
  split; [by eapply range_values_NoDup |].
  split; [by eapply range_values_length |].
  split; [intros r; by apply range_values_elem |].
  split; [by eapply range_values_NoDup |].
  by eapply range_values_length.
Qed.

(** The registry of [main], visited in one admissible order. *)
Lemma list_methods_enumerate_registry_witness :
  exists (tools : list (Tool.t any)) (resources : list Resource.t),
    Server.handleToolsList (toolsOrder (canonicalOrder Server.mainServer))
      Server.mainServer reqToolsList
    = success (ANumber 2%float) {[ "tools" := ATools tools ]}
    /\ NoDup (Tool.Name <$> tools)
    /\ NoDup (Resource.URI <$> resources).
Proof.
  destruct (list_methods_enumerate_registry (canonicalOrder Server.mainServer)
              Server.mainServer reqToolsList) as
    (tools & resources & Ht & _ & _ & _ & _ & Hnd & _ & _ & Hndr & _).
  - apply Server.Setup_resource, Server.Setup_tool, Server.Setup_new.
  - split; exact (Permutation_refl _).
  - exists tools, resources. split; [exact Ht | split; [exact Hnd | exact Hndr]].
Defined.

(** * Further properties of the handlers *)

(** ** Which requests fail, and how *)

Lemma success_is_not_failure (id id' : any) (result : gmap string any)
    (code : Z) (message : string) :
  success id result <> failure id' code message.
Proof. unfold success, failure. discriminate. Qed.

Lemma failure_inj (id id' : any) (code code' : Z) (message message' : string) :
  failure id code message = failure id' code' message' ->
  id = id' /\ code = code' /\ message = message'.
Proof. unfold failure. intros Heq. by injection Heq. Qed.

Lemma isResult_failure (id : any) (code : Z) (message : string) :
  ~ isResult (failure id code message).
Proof. intros [_ He]. discriminate He. Qed.

(** No handler answers ["Method not found"]. *)
Lemma handlers_never_method_not_found
    (ro : RangeOrder) (s : MCPServer.t) (req : JSONRPCRequest.t) :
  errorMessage (Server.handleInitialize s req) <> Some "Method not found"
  /\ errorMessage (Server.handleToolsList (toolsOrder ro) s req) <> Some "Method not found"
  /\ errorMessage (Server.handleToolsCall s req) <> Some "Method not found"
  /\ errorMessage (Server.handleResourcesList (resourcesOrder ro) s req)
     <> Some "Method not found"
  /\ errorMessage (Server.handleResourcesRead s req) <> Some "Method not found".
Proof.
  unfold Server.handleToolsCall, Server.handleResourcesRead.
  repeat split; repeat case_match; discriminate.
Qed.

(** X1: with the right protocol version, the dispatcher answers -32601
    ["Method not found"] exactly for the methods outside its five cases. *)
Theorem method_not_found_iff
    (ro : RangeOrder) (s : MCPServer.t) (req : JSONRPCRequest.t) :
  JSONRPCRequest.JSONRPC req = "2.0" ->
  Server.HandleRequest ro s req
  = failure (JSONRPCRequest.ID req) (-32601) "Method not found"
  <-> JSONRPCRequest.Method req
      ∉ ["initialize"; "tools/list"; "tools/call"; "resources/list"; "resources/read"].
Proof.
  intros Hv. split.
  - intros Hresp Hin.
    apply (f_equal errorMessage) in Hresp. cbn in Hresp.
    destruct (handlers_never_method_not_found ro s req) as (H1 & H2 & H3 & H4 & H5).
    rewrite !elem_of_cons, elem_of_nil in Hin.
    destruct Hin as [Hm | [Hm | [Hm | [Hm | [Hm | []]]]]].
    + by rewrite HandleRequest_initialize in Hresp.
    + by rewrite HandleRequest_tools_list in Hresp.
    + by rewrite HandleRequest_tools_call in Hresp.
    + by rewrite HandleRequest_resources_list in Hresp.
    + by rewrite HandleRequest_resources_read in Hresp.
  - rewrite !not_elem_of_cons. intros (H1 & H2 & H3 & H4 & H5 & _).
    by apply HandleRequest_unknown_method.
Qed.

Lemma method_not_found_iff_witness :
  Server.HandleRequest noOrder Server.mainServer (reqNoParams "ping")
  = failure (ANumber 5%float) (-32601) "Method not found".
Proof.
  apply (method_not_found_iff noOrder Server.mainServer (reqNoParams "ping") eq_refl).
  rewrite !not_elem_of_cons. repeat split; try discriminate. apply not_elem_of_nil.
Defined.

(** X2: a [tools/call] whose params are not an object with a string [name]
    fails with -32602 whatever the registry holds: ["Invalid parameters"]
    when the params are not an object at all, ["Tool name is required"]
    when they are. *)
Theorem tools_call_rejects_malformed_params (s : MCPServer.t) (req : JSONRPCRequest.t) :
  (forall params name,
     JSONRPCRequest.Params req = AMap params -> params !! "name" <> Some (AString name)) ->
  exists message,
    Server.handleToolsCall s req = failure (JSONRPCRequest.ID req) (-32602) message
    /\ ((message = "Invalid parameters"
         /\ forall params, JSONRPCRequest.Params req <> AMap params)
        \/ (message = "Tool name is required"
            /\ exists params, JSONRPCRequest.Params req = AMap params)).
Proof.
  intros Hbad. unfold Server.handleToolsCall.
  destruct (JSONRPCRequest.Params req) as [| | | | | params | | | |] eqn:Hp; cbn [assertMap];
    try (exists "Invalid parameters"; split; [reflexivity | left; split; [done | discriminate]]).
  assert (Hn : assertString (index params "name") = None).
  { apply assertString_index_None. intros name. by apply Hbad. }
  rewrite Hn. exists "Tool name is required".
  split; [reflexivity | right; split; [done | by exists params]].
Qed.

(** A [tools/call] without params. *)
Lemma tools_call_rejects_malformed_params_witness :
  exists message,
    Server.handleToolsCall Server.mainServer (reqNoParams "tools/call")
    = failure (ANumber 5%float) (-32602) message
    /\ ((message = "Invalid parameters"
         /\ forall params, JSONRPCRequest.Params (reqNoParams "tools/call") <> AMap params)
        \/ (message = "Tool name is required"
            /\ exists params, JSONRPCRequest.Params (reqNoParams "tools/call") = AMap params)).
Proof.
  apply (tools_call_rejects_malformed_params Server.mainServer (reqNoParams "tools/call")).
  intros params name Hp. discriminate Hp.
Defined.

(** X3: [tools/call] answers with a result exactly when the params are an
    object whose [name] is a string that is a key of the tool registry; the
    arguments play no part in that. *)
Theorem tools_call_result_iff (s : MCPServer.t) (req : JSONRPCRequest.t) :
  isResult (Server.handleToolsCall s req)
  <-> exists params name,
        JSONRPCRequest.Params req = AMap params
        /\ params !! "name" = Some (AString name)
        /\ is_Some (MCPServer.tools s !! name).
Proof.
  split.
  - unfold Server.handleToolsCall.
    destruct (JSONRPCRequest.Params req) as [| | | | | params | | | |] eqn:Hp; cbn [assertMap];
      try (intros Hr; by apply isResult_failure in Hr).
    unfold index. destruct (params !! "name") as [[| | | name | | | | | |] |] eqn:Hn;
      cbn [default from_option id assertString];
      try (intros Hr; by apply isResult_failure in Hr).
    destruct (MCPServer.tools s !! name) as [tool |] eqn:Ht;
      [| intros Hr; by apply isResult_failure in Hr].
    intros _. exists params, name. by rewrite Ht.
  - intros (params & name & Hp & Hn & [tool Ht]).
    rewrite (handleToolsCall_registered s req params name Hp) with (tool := tool); [| | done].
    + apply success_outcome.
    + unfold index. by rewrite Hn.
Qed.

Lemma AMaps_singleton_inj (a b : gmap string any) :
  Some (AMaps [a]) = Some (AMaps [b]) -> a = b.
Proof. intros Heq. by injection Heq. Qed.

Lemma AMap_inj (a b : gmap string any) : AMap a = AMap b -> a = b.
Proof. intros Heq. by injection Heq. Qed.

Lemma contentsPayload_inj (uri uri' mime mime' text text' : string) :
  contentsPayload uri mime text = contentsPayload uri' mime' text' ->
  uri = uri' /\ mime = mime' /\ text = text'.
Proof.
  intros Heq. apply (f_equal (fun m : gmap string any => m !! "contents")) in Heq.
  unfold contentsPayload in Heq. rewrite !lookup_singleton_eq in Heq.
  apply AMaps_singleton_inj in Heq.
  pose proof (f_equal (fun m : gmap string any => m !! "uri") Heq) as Hu.
  pose proof (f_equal (fun m : gmap string any => m !! "mimeType") Heq) as Hm.
  pose proof (f_equal (fun m : gmap string any => m !! "text") Heq) as Ht.
  cbn beta in Hu, Hm, Ht.
  rewrite !lookup_insert_eq in Hu.
  rewrite !(lookup_insert_ne _ "uri" "mimeType"), !lookup_insert_eq in Hm by done.
  rewrite !(lookup_insert_ne _ "uri" "text"), !(lookup_insert_ne _ "mimeType" "text"),
    !lookup_singleton_eq in Ht by done.
  by injection Hu as ->; injection Hm as ->; injection Ht as ->.
Qed.

(** X4: a [resources/read] whose params are not an object with a string
    [uri] fails with -32602: ["Invalid parameters"] when the params are not
    an object, ["URI is required"] when they are. *)
Theorem resources_read_rejects_malformed_params (s : MCPServer.t) (req : JSONRPCRequest.t) :
  (forall params uri,
     JSONRPCRequest.Params req = AMap params -> params !! "uri" <> Some (AString uri)) ->
  exists message,
    Server.handleResourcesRead s req = failure (JSONRPCRequest.ID req) (-32602) message
    /\ ((message = "Invalid parameters"
         /\ forall params, JSONRPCRequest.Params req <> AMap params)
        \/ (message = "URI is required"
            /\ exists params, JSONRPCRequest.Params req = AMap params)).
Proof.
  intros Hbad. unfold Server.handleResourcesRead.
  destruct (JSONRPCRequest.Params req) as [| | | | | params | | | |] eqn:Hp; cbn [assertMap];
    try (exists "Invalid parameters"; split; [reflexivity | left; split; [done | discriminate]]).
  assert (Hn : assertString (index params "uri") = None).
  { apply assertString_index_None. intros uri. by apply Hbad. }
  rewrite Hn. exists "URI is required".
  split; [reflexivity | right; split; [done | by exists params]].
Qed.

(** A [resources/read] whose [uri] is a number. *)
Lemma resources_read_rejects_malformed_params_witness :
  exists message,
    Server.handleResourcesRead emptyServer
      {| JSONRPCRequest.JSONRPC := "2.0";
         JSONRPCRequest.ID := ANil;
         JSONRPCRequest.Method := "resources/read";
         JSONRPCRequest.Params := AMap {[ "uri" := ANumber 7%float ]} |}
    = failure ANil (-32602) message
    /\ message = "URI is required".
Proof.
  destruct (resources_read_rejects_malformed_params emptyServer
              {| JSONRPCRequest.JSONRPC := "2.0";
                 JSONRPCRequest.ID := ANil;
                 JSONRPCRequest.Method := "resources/read";
                 JSONRPCRequest.Params := AMap {[ "uri" := ANumber 7%float ]} |})
    as (message & Hresp & Hmsg).
  - intros params uri Hp. injection Hp as <-. discriminate.
  - exists message. split; [exact Hresp |].
    destruct Hmsg as [[_ Hno] | [Hm _]]; [| exact Hm].
    by destruct (Hno {[ "uri" := ANumber 7%float ]}).
Defined.

(** X5: [resources/read] answers with a result exactly when the params are
    an object whose [uri] is a string starting with ["file://"] or
    ["https://"]; every other request gets code -32602. *)
Theorem resources_read_result_iff (s : MCPServer.t) (req : JSONRPCRequest.t) :
  (isResult (Server.handleResourcesRead s req)
   <-> exists params uri,
         JSONRPCRequest.Params req = AMap params
         /\ params !! "uri" = Some (AString uri)
         /\ (HasPrefix uri "file://" = true \/ HasPrefix uri "https://" = true))
  /\ (isResult (Server.handleResourcesRead s req)
      \/ errorCode (Server.handleResourcesRead s req) = Some (-32602)).
Proof.
  split.
  - split.
    + unfold Server.handleResourcesRead.
      destruct (JSONRPCRequest.Params req) as [| | | | | params | | | |] eqn:Hp; cbn [assertMap];
        try (intros Hr; by apply isResult_failure in Hr).
      unfold index. destruct (params !! "uri") as [[| | | uri | | | | | |] |] eqn:Hu;
        cbn [default from_option id assertString];
        try (intros Hr; by apply isResult_failure in Hr).
      destruct (HasPrefix uri "file://") eqn:Hf, (HasPrefix uri "https://") eqn:Hh;
        cbn [negb andb]; try (intros _; exists params, uri; by auto).
      intros Hr; by apply isResult_failure in Hr.
    + intros (params & uri & Hp & Hu & Hok).
      rewrite (handleResourcesRead_allowed s req params uri Hp).
      * apply success_outcome.
      * unfold index. by rewrite Hu.
      * destruct Hok as [-> | ->]; [done | apply orb_true_r].
  - unfold Server.handleResourcesRead.
    repeat case_match; first [ by right | left; apply success_outcome ].
Qed.

(** ** The executor beyond [echo] *)

(** X6: a registered tool whose name is not ["echo"] can be called, but
    every call, whatever its arguments, is answered with the result
    [{error: "Unknown tool"}]. *)
Theorem registered_non_echo_tool_is_unknown
    (s : MCPServer.t) (req : JSONRPCRequest.t)
    (params : gmap string any) (toolName : string) (tool : Tool.t any) :
  JSONRPCRequest.Params req = AMap params ->
  index params "name" = AString toolName ->
  MCPServer.tools s !! toolName = Some tool ->
  toolName <> "echo" ->
  Server.handleToolsCall s req
  = success (JSONRPCRequest.ID req) {[ "error" := AString "Unknown tool" ]}.
Proof.
  intros Hp Hn Ht Hne.
  rewrite (handleToolsCall_registered s req params toolName Hp Hn tool Ht).
  by rewrite executeTool_other.
Qed.

Lemma registered_non_echo_tool_is_unknown_witness :
  Server.handleToolsCall (Server.RegisterTool sumTool Server.mainServer)
    (reqToolsCall "sum" (ASlice [ANumber 1%float; ANumber 2%float]))
  = success (ANumber 3%float) {[ "error" := AString "Unknown tool" ]}.
Proof.
  apply (registered_non_echo_tool_is_unknown
           (Server.RegisterTool sumTool Server.mainServer)
           (reqToolsCall "sum" (ASlice [ANumber 1%float; ANumber 2%float]))
           {[ "name" := AString "sum";
              "arguments" := ASlice [ANumber 1%float; ANumber 2%float] ]}
           "sum" sumTool); [reflexivity | reflexivity | reflexivity | discriminate].
Defined.

Lemma echoPayload_inj (message message' : string) :
  echoPayload message = echoPayload message' -> message = message'.
Proof.
  intros Heq. apply (f_equal (fun m : gmap string any => m !! "content")) in Heq.
  unfold echoPayload in Heq. rewrite !lookup_singleton_eq in Heq.
  apply AMaps_singleton_inj in Heq.
  apply (f_equal (fun m : gmap string any => m !! "text")) in Heq.
  rewrite !(lookup_insert_ne _ "type" "text"), !lookup_singleton_eq in Heq by done.
  by injection Heq.
Qed.

(** X7: [echo] loses nothing: the payload is never an error for a string
    message, the empty one included, and two calls with the same payload
    were given the same message, whatever else their arguments hold. *)
Theorem echo_is_lossless
    (s : MCPServer.t) (args args' : gmap string any) (message message' : string) :
  args !! "message" = Some (AString message) ->
  args' !! "message" = Some (AString message') ->
  (forall e, Server.executeTool s "echo" (AMap args) <> errorPayload e)
  /\ (Server.executeTool s "echo" (AMap args) = Server.executeTool s "echo" (AMap args')
      <-> message = message').
Proof.
  intros Hm Hm'.
  rewrite (executeTool_echo_ok s args message Hm), (executeTool_echo_ok s args' message' Hm').
  split.
  - intros e Heq. apply (f_equal (fun m : gmap string any => m !! "error")) in Heq.
    unfold echoPayload, errorPayload in Heq.
    rewrite lookup_singleton_eq, lookup_singleton_ne in Heq by done. discriminate Heq.
  - split; [apply echoPayload_inj | by intros ->].
Qed.

(** The empty message, next to an unrelated field. *)
Lemma echo_is_lossless_witness :
  (forall e,
     Server.executeTool emptyServer "echo"
       (AMap {[ "message" := AString ""; "volume" := ANumber 11%float ]})
     <> errorPayload e)
  /\ (Server.executeTool emptyServer "echo"
        (AMap {[ "message" := AString ""; "volume" := ANumber 11%float ]})
      = Server.executeTool emptyServer "echo" (AMap {[ "message" := AString "" ]})
      <-> "" = "").
Proof.
  apply (echo_is_lossless emptyServer
           {[ "message" := AString ""; "volume" := ANumber 11%float ]}
           {[ "message" := AString "" ]} "" ""); reflexivity.
Defined.

(** ** The resource reader *)

Lemma HasPrefix_file_not_https (uri : string) :
  HasPrefix uri "file://" = true -> HasPrefix uri "https://" = false.
Proof.
  intros Hf. apply HasPrefix_spec in Hf as [rest ->].
  change ("file://" +:+ rest) with (String "f" ("ile://" +:+ rest)).
  change "https://" with (String "h" "ttps://").
  by rewrite HasPrefix_cons.
Qed.

(** The reader's fallback text is returned for the uris without an allowed
    prefix and for no other. *)
Lemma readResource_unknown_iff (s : MCPServer.t) (uri : string) :
  Server.readResource s uri = "Unknown resource type"
  <-> HasPrefix uri "file://" = false /\ HasPrefix uri "https://" = false.
Proof.
  unfold Server.readResource.
  destruct (HasPrefix uri "file://"), (HasPrefix uri "https://"); cbn; split;
    try done; by intros [? ?].
Qed.

(** X8: the fallback branch of the reader cannot be reached through
    [resources/read]: whenever the handler's result is a contents object,
    its mime type is ["text/plain"], its text is the reader's text for the
    listed uri, and that text is not ["Unknown resource type"]. *)
Theorem resources_read_never_unknown_type
    (s : MCPServer.t) (req : JSONRPCRequest.t) (uri mime text : string) :
  JSONRPCResponse.Result (Server.handleResourcesRead s req)
  = AMap (contentsPayload uri mime text) ->
  mime = "text/plain"
  /\ text = Server.readResource s uri
  /\ text <> "Unknown resource type"
  /\ exists params,
       JSONRPCRequest.Params req = AMap params /\ index params "uri" = AString uri.
Proof.
  unfold Server.handleResourcesRead.
  destruct (JSONRPCRequest.Params req) as [| | | | | params | | | |] eqn:Hp; cbn [assertMap];
    try discriminate.
  destruct (assertString (index params "uri")) as [uri0 |] eqn:Hu; [| discriminate].
  destruct (index params "uri") eqn:Hi; try discriminate Hu. injection Hu as ->.
  destruct (negb (HasPrefix uri0 "file://") && negb (HasPrefix uri0 "https://")) eqn:Hok;
    [discriminate |].
  cbn [JSONRPCResponse.Result success]. intros Heq.
  assert (Hpay : contentsPayload uri0 "text/plain" (Server.readResource s uri0)
                 = contentsPayload uri mime text) by (by apply AMap_inj).
  apply contentsPayload_inj in Hpay as (-> & <- & <-).
  split; [done |]. split; [done |]. split; [| by exists params].
  rewrite readResource_unknown_iff. intros [Hf Hh]. by rewrite Hf, Hh in Hok.
Qed.

Lemma resources_read_never_unknown_type_witness :
  "text/plain" = "text/plain"
  /\ "Content of file:///a.txt" = Server.readResource Server.mainServer "file:///a.txt"
  /\ "Content of file:///a.txt" <> "Unknown resource type"
  /\ exists params,
       JSONRPCRequest.Params (reqResourcesRead "file:///a.txt") = AMap params
       /\ index params "uri" = AString "file:///a.txt".
Proof.
  apply (resources_read_never_unknown_type Server.mainServer
           (reqResourcesRead "file:///a.txt")
           "file:///a.txt" "text/plain" "Content of file:///a.txt").
  reflexivity.
Defined.

(** X9: on the allowed uris the reader is injective: the two prefixes
    exclude each other, and different uris are never given the same
    text. *)
Theorem readResource_injective (s : MCPServer.t) (uri uri' : string) :
  HasPrefix uri "file://" || HasPrefix uri "https://" = true ->
  HasPrefix uri' "file://" || HasPrefix uri' "https://" = true ->
  HasPrefix uri "file://" && HasPrefix uri "https://" = false
  /\ (Server.readResource s uri = Server.readResource s uri' -> uri = uri').
Proof.
  intros Hok Hok'. split.
  - destruct (HasPrefix uri "file://") eqn:Hf; [| done].
    by rewrite (HasPrefix_file_not_https uri Hf).
  - unfold Server.readResource.
    destruct (HasPrefix uri "file://"), (HasPrefix uri' "file://");
      cbn [orb] in Hok, Hok'; try rewrite Hok; try rewrite Hok'; cbn;
      intros Heq; by injection Heq.
Qed.

Lemma readResource_injective_witness :
  HasPrefix "https://a" "file://" && HasPrefix "https://a" "https://" = false
  /\ (Server.readResource emptyServer "https://a"
      = Server.readResource emptyServer "file:///a" -> "https://a" = "file:///a").
Proof.
  apply (readResource_injective emptyServer "https://a" "file:///a"); reflexivity.
Defined.

(** ** Registration *)

(** X10: registering under a key that is already taken overwrites: the
    later tool (or resource) replaces the earlier one and the registry ends
    up as if the earlier registration had not happened. *)
Theorem registration_overwrites
    (s : MCPServer.t) (t1 t2 : Tool.t any) (r1 r2 : Resource.t) :
  Tool.Name t1 = Tool.Name t2 ->
  Resource.URI r1 = Resource.URI r2 ->
  Server.RegisterTool t2 (Server.RegisterTool t1 s) = Server.RegisterTool t2 s
  /\ MCPServer.tools (Server.RegisterTool t2 (Server.RegisterTool t1 s)) !! Tool.Name t1
     = Some t2
  /\ Server.RegisterResource r2 (Server.RegisterResource r1 s) = Server.RegisterResource r2 s
  /\ MCPServer.resources (Server.RegisterResource r2 (Server.RegisterResource r1 s))
       !! Resource.URI r1
     = Some r2.
Proof.
  intros Ht Hr. unfold Server.RegisterTool, Server.RegisterResource. cbn.
  rewrite Ht, Hr, !insert_insert_eq, !lookup_insert_eq. done.
Qed.

Lemma registration_overwrites_witness :
  Server.RegisterTool otherEcho (Server.RegisterTool Server.echoTool emptyServer)
  = Server.RegisterTool otherEcho emptyServer
  /\ MCPServer.tools (Server.RegisterTool otherEcho (Server.RegisterTool Server.echoTool emptyServer))
       !! "echo"
     = Some otherEcho.
Proof.
  destruct (registration_overwrites emptyServer Server.echoTool otherEcho
              Server.exampleResource Server.exampleResource eq_refl eq_refl)
    as (Hsame & Hlook & _).
  split; [exact Hsame | exact Hlook].
Defined.

(** X11: registrations under different keys commute, and so do the
    registration of a tool and that of a resource: the registry depends on
    what was registered last under each key, not on the order of the
    calls. *)
Theorem registration_commutes
    (s : MCPServer.t) (t1 t2 : Tool.t any) (r1 r2 : Resource.t) :
  Tool.Name t1 <> Tool.Name t2 ->
  Resource.URI r1 <> Resource.URI r2 ->
  Server.RegisterTool t2 (Server.RegisterTool t1 s)
  = Server.RegisterTool t1 (Server.RegisterTool t2 s)
  /\ Server.RegisterResource r2 (Server.RegisterResource r1 s)
     = Server.RegisterResource r1 (Server.RegisterResource r2 s)
  /\ Server.RegisterTool t1 (Server.RegisterResource r1 s)
     = Server.RegisterResource r1 (Server.RegisterTool t1 s).
Proof.
  intros Ht Hr. unfold Server.RegisterTool, Server.RegisterResource. cbn.
  rewrite (insert_insert_ne _ (Tool.Name t2) (Tool.Name t1)) by done.
  rewrite (insert_insert_ne _ (Resource.URI r2) (Resource.URI r1)) by done.
  done.
Qed.

Lemma registration_commutes_witness :
  Server.RegisterTool sumTool (Server.RegisterTool Server.echoTool emptyServer)
  = Server.RegisterTool Server.echoTool (Server.RegisterTool sumTool emptyServer).
Proof.
  apply (registration_commutes emptyServer Server.echoTool sumTool
           Server.exampleResource notesResource); discriminate.
Defined.

(** X12: once a tool is registered, a call naming it is answered with a
    result, and the answers to calls naming any other tool are what they
    were before. *)
Theorem RegisterTool_enables_its_name_only
    (s : MCPServer.t) (tool : Tool.t any) (req : JSONRPCRequest.t)
    (params : gmap string any) (toolName : string) :
  JSONRPCRequest.Params req = AMap params ->
  index params "name" = AString toolName ->
  (toolName = Tool.Name tool ->
   isResult (Server.handleToolsCall (Server.RegisterTool tool s) req))
  /\ (toolName <> Tool.Name tool ->
      Server.handleToolsCall (Server.RegisterTool tool s) req
      = Server.handleToolsCall s req).
Proof.
  intros Hp Hn. split.
  - intros ->.
    rewrite (handleToolsCall_registered (Server.RegisterTool tool s) req params
               (Tool.Name tool) Hp Hn tool).
    + apply success_outcome.
    + cbn. apply lookup_insert_eq.
  - intros Hne. unfold Server.handleToolsCall.
    rewrite Hp. cbn [assertMap]. rewrite Hn. cbn [assertString].
    cbn [MCPServer.tools Server.RegisterTool].
    by rewrite lookup_insert_ne.
Qed.

(** Registering [sum] on an empty server: [sum] is answered, [echo] is
    still not found. *)
Lemma RegisterTool_enables_its_name_only_witness :
  isResult (Server.handleToolsCall (Server.RegisterTool sumTool emptyServer)
              (reqToolsCall "sum" ANil))
  /\ Server.handleToolsCall (Server.RegisterTool sumTool emptyServer) (reqToolsCall "echo" ANil)
     = Server.handleToolsCall emptyServer (reqToolsCall "echo" ANil).
Proof.
  split.
  - apply (RegisterTool_enables_its_name_only emptyServer sumTool (reqToolsCall "sum" ANil)
             {[ "name" := AString "sum"; "arguments" := ANil ]} "sum");
      reflexivity.
  - apply (RegisterTool_enables_its_name_only emptyServer sumTool (reqToolsCall "echo" ANil)
             {[ "name" := AString "echo"; "arguments" := ANil ]} "echo");
      [reflexivity | reflexivity | discriminate].
Defined.

(** X13: registering a resource changes nothing but [resources/list]: for
    every other request, each response the server could give before is one
    it can give afterwards. *)
Theorem RegisterResource_changes_resources_list_only
    (ro : RangeOrder) (s : MCPServer.t) (resource : Resource.t) (req : JSONRPCRequest.t) :
  range_ok s ro ->
  JSONRPCRequest.Method req <> "resources/list" ->
  exists ro',
    range_ok (Server.RegisterResource resource s) ro'
    /\ Server.HandleRequest ro' (Server.RegisterResource resource s) req
       = Server.HandleRequest ro s req.
Proof.
  intros [Ht _] Hm.
  exists {| toolsOrder := toolsOrder ro;
            resourcesOrder :=
              map_to_list (MCPServer.resources (Server.RegisterResource resource s)) |}.
  split; [split; [exact Ht | exact (Permutation_refl _)] |].
  unfold Server.HandleRequest.
  destruct (String.eqb_spec (JSONRPCRequest.Method req) "resources/list"); [done |].
  reflexivity.
Qed.

Lemma RegisterResource_changes_resources_list_only_witness :
  exists ro',
    range_ok (Server.RegisterResource notesResource Server.mainServer) ro'
    /\ Server.HandleRequest ro' (Server.RegisterResource notesResource Server.mainServer)
         (reqResourcesRead "file:///notes.txt")
       = Server.HandleRequest (canonicalOrder Server.mainServer) Server.mainServer
           (reqResourcesRead "file:///notes.txt").
Proof.
  apply (RegisterResource_changes_resources_list_only (canonicalOrder Server.mainServer)
           Server.mainServer notesResource (reqResourcesRead "file:///notes.txt")).
  - split; exact (Permutation_refl _).
  - discriminate.
Defined.

(** ** The list methods on small registries *)

(** X14: on a server fresh from [NewMCPServer] both list methods return an
    empty list, not a missing field, and every [tools/call] naming a tool is
    answered ["Tool not found"]. *)
Theorem fresh_server_is_empty
    (name version : string) (ro : RangeOrder) (req : JSONRPCRequest.t) :
  range_ok (Server.NewMCPServer name version) ro ->
  Server.handleToolsList (toolsOrder ro) (Server.NewMCPServer name version) req
  = success (JSONRPCRequest.ID req) {[ "tools" := ATools [] ]}
  /\ Server.handleResourcesList (resourcesOrder ro) (Server.NewMCPServer name version) req
     = success (JSONRPCRequest.ID req) {[ "resources" := AResources [] ]}
  /\ (forall params toolName,
        JSONRPCRequest.Params req = AMap params ->
        index params "name" = AString toolName ->
        Server.handleToolsCall (Server.NewMCPServer name version) req
        = failure (JSONRPCRequest.ID req) (-32601) "Tool not found").
Proof.
  intros [Ht Hr]. unfold map_range in Ht, Hr. cbn in Ht, Hr.
  rewrite map_to_list_empty in Ht. rewrite map_to_list_empty in Hr.
  apply Permutation_nil_r in Ht, Hr.
  split; [| split].
  - unfold Server.handleToolsList. by rewrite Ht.
  - unfold Server.handleResourcesList. by rewrite Hr.
  - intros params toolName Hp Hn.
    by apply (handleToolsCall_not_registered _ req params toolName Hp Hn).
Qed.

Lemma fresh_server_is_empty_witness :
  Server.handleToolsList (toolsOrder noOrder) (Server.NewMCPServer "srv" "0.1") reqToolsList
  = success (ANumber 2%float) {[ "tools" := ATools [] ]}.
Proof.
  apply (fresh_server_is_empty "srv" "0.1" noOrder reqToolsList).
  split; exact (Permutation_refl _).
Defined.

Lemma short_permutation_eq {A : Type} (l1 l2 : list A) :
  l1 ≡ₚ l2 -> (length l2 <= 1)%nat -> l1 = l2.
Proof.
  intros Hperm Hlen. destruct l2 as [| x [| y l2]].
  - by apply Permutation_nil_r.
  - by apply Permutation_singleton_r.
  - cbn in Hlen. lia.
Qed.

(** A map with at most one entry can be visited in one order only. *)
Lemma small_registry_orders_agree (ro1 ro2 : RangeOrder) (s : MCPServer.t) :
  range_ok s ro1 ->
  range_ok s ro2 ->
  (size (MCPServer.tools s) <= 1)%nat ->
  (size (MCPServer.resources s) <= 1)%nat ->
  toolsOrder ro1 = toolsOrder ro2 /\ resourcesOrder ro1 = resourcesOrder ro2.
Proof.
  intros [Ht1 Hr1] [Ht2 Hr2] Hst Hsr. unfold map_range in *. split.
  - apply short_permutation_eq; [by rewrite Ht1, Ht2 |].
    by rewrite Ht2, length_map_to_list.
  - apply short_permutation_eq; [by rewrite Hr1, Hr2 |].
    by rewrite Hr2, length_map_to_list.
Qed.

(** X15: with at most one tool and at most one resource registered, as in
    [main], the order of iteration cannot show: every request has one
    possible response. *)
Theorem small_registry_is_deterministic
    (ro1 ro2 : RangeOrder) (s : MCPServer.t) (req : JSONRPCRequest.t) :
  range_ok s ro1 ->
  range_ok s ro2 ->
  (size (MCPServer.tools s) <= 1)%nat ->
  (size (MCPServer.resources s) <= 1)%nat ->
  Server.HandleRequest ro1 s req = Server.HandleRequest ro2 s req.
Proof.
  intros Hok1 Hok2 Hst Hsr.
  destruct (small_registry_orders_agree ro1 ro2 s Hok1 Hok2 Hst Hsr) as [Ht Hr].
  unfold Server.HandleRequest, Server.handleToolsList, Server.handleResourcesList.
  by rewrite Ht, Hr.
Qed.

Lemma small_registry_is_deterministic_witness :
  Server.HandleRequest (canonicalOrder Server.mainServer) Server.mainServer reqToolsList
  = Server.HandleRequest
      {| toolsOrder := [("echo", Server.echoTool)];
         resourcesOrder := [("file:///example.txt", Server.exampleResource)] |}
      Server.mainServer reqToolsList.
Proof.
  apply (small_registry_is_deterministic (canonicalOrder Server.mainServer)
           {| toolsOrder := [("echo", Server.echoTool)];
              resourcesOrder := [("file:///example.txt", Server.exampleResource)] |}
           Server.mainServer reqToolsList).
  - split; exact (Permutation_refl _).
  - split; vm_compute; exact (Permutation_refl _).
  - vm_compute. lia.
  - vm_compute. lia.
Defined.

(** X16: on a registry built by registration, [tools/list] and
    [tools/call] agree: a call whose params name a tool is answered with a
    result exactly when that name is among the names [tools/list]
    returns. *)
Theorem listed_names_are_the_callable_names
    (ro : RangeOrder) (s : MCPServer.t) (reqList req : JSONRPCRequest.t)
    (params : gmap string any) (toolName : string) :
  Server.Setup s ->
  range_ok s ro ->
  JSONRPCRequest.Params req = AMap params ->
  index params "name" = AString toolName ->
  exists names,
    listedToolNames (Server.handleToolsList (toolsOrder ro) s reqList) = Some names
    /\ (toolName ∈ names <-> isResult (Server.handleToolsCall s req)).
Proof.
  intros Hsetup [Ht _] Hp Hn.
  destruct (Setup_keyed s Hsetup) as [Hkt _].
  exists (toolsOrder ro).*1. split.
  - unfold listedToolNames, resultField, Server.handleToolsList.
    cbn [JSONRPCResponse.Result success]. rewrite lookup_singleton_eq.
    rewrite range_append_values. cbn [app].
    by rewrite (range_keys Tool.Name (MCPServer.tools s) (toolsOrder ro) Hkt Ht).
  - destruct (MCPServer.tools s !! toolName) as [tool |] eqn:Hl.
    + rewrite (handleToolsCall_registered s req params toolName Hp Hn tool Hl). split.
      * intros _. apply success_outcome.
      * intros _. apply list_elem_of_fmap. exists (toolName, tool).
        split; [done | by apply (range_lookup (MCPServer.tools s))].
    + rewrite (handleToolsCall_not_registered s req params toolName Hp Hn Hl). split.
      * intros Hin. apply list_elem_of_fmap in Hin as [[k tool] [-> Hin]].
        apply (range_lookup (MCPServer.tools s) _ Ht) in Hin. cbn in Hl. congruence.
      * intros Hr. by apply isResult_failure in Hr.
Qed.

Lemma listed_names_are_the_callable_names_witness :
  exists names,
    listedToolNames (Server.handleToolsList (toolsOrder (canonicalOrder Server.mainServer))
                       Server.mainServer reqToolsList)
    = Some names
    /\ ("echo" ∈ names
        <-> isResult (Server.handleToolsCall Server.mainServer (reqToolsCall "echo" ANil))).
Proof.
  apply (listed_names_are_the_callable_names (canonicalOrder Server.mainServer)
           Server.mainServer reqToolsList (reqToolsCall "echo" ANil)
           {[ "name" := AString "echo"; "arguments" := ANil ]} "echo").
  - apply Server.Setup_resource, Server.Setup_tool, Server.Setup_new.
  - split; exact (Permutation_refl _).
  - reflexivity.
  - reflexivity.
Defined.

(** ** The transport loop *)

Lemma stdout_app (a b : list output) : stdout (a ++ b) = (stdout a ++ stdout b)%list.
Proof. apply omap_app. Qed.

Lemma logged_app (a b : list output) : logged (a ++ b) = (logged a ++ logged b)%list.
Proof. apply omap_app. Qed.

Section Loop.
Variable TrimSpace : string -> string.
Variable Unmarshal : string -> string + JSONRPCRequest.t.
Variable Marshal : JSONRPCResponse.t -> string + string.

#[local] Abbreviation loop := (Run_loop TrimSpace Unmarshal Marshal).
#[local] Abbreviation run := (Run TrimSpace Unmarshal Marshal).

Lemma stdout_Run (orders : nat -> RangeOrder) (s : MCPServer.t)
    (lines : list string) (scanErr : option string) :
  stdout (run orders s lines scanErr) = stdout (loop orders s lines).
Proof.
  unfold Run. rewrite stdout_app. destruct scanErr; cbn; by rewrite app_nil_r.
Qed.



(** X18: lines that are blank or do not parse are never answered: nothing
    is written to standard output for them; blank lines are not even
    logged, and each line that does not parse is logged once. *)
Theorem dropped_lines_get_no_reply (orders : nat -> RangeOrder) (s : MCPServer.t)
    (lines : list string) (scanErr : option string) :
  Forall (fun line => TrimSpace line = "" \/ exists err, Unmarshal line = inl err) lines ->
  stdout (run orders s lines scanErr) = []
  /\ (Forall (fun line => TrimSpace line = "") lines -> run orders s lines None = [])
  /\ length (logged (loop orders s lines))
     = length (filter (fun line => TrimSpace line <> "") lines).
Proof.
  intros Hall. rewrite stdout_Run. unfold Run. rewrite app_nil_r.
  revert orders. induction Hall as [| line rest Hline _ IH]; intros orders; [done |].
  destruct (IH (fun n => orders (S n))) as (IHout & IHblank & IHlog).
  cbn [Run_loop]. rewrite filter_cons.
  destruct (String.eqb_spec (TrimSpace line) "") as [Hblank | Hblank].
  - rewrite decide_False by (by intros H). cbn [app].
    split; [exact IHout |]. split; [| exact IHlog].
    intros Hb. apply IHblank. by apply Forall_cons in Hb as [_ Hb].
  - destruct Hline as [Hline | [err Herr]]; [done |].
    rewrite Herr, decide_True by done.
    change (stdout (loop (fun n => orders (S n)) s rest) = []
            /\ (Forall (fun line => TrimSpace line = "") (line :: rest) ->
                LogPrintf ("JSON parsing error: " +:+ err)
                  :: loop (fun n => orders (S n)) s rest = [])
            /\ S (length (logged (loop (fun n => orders (S n)) s rest)))
               = S (length (filter (fun line => TrimSpace line <> "") rest))).
    split; [exact IHout |]. split; [| by rewrite IHlog].
    intros Hb. by apply Forall_cons in Hb as [Hb _].
Qed.

Lemma loop_stdout_length (orders : nat -> RangeOrder) (s : MCPServer.t) (lines : list string) :
  (length (stdout (loop orders s lines)) <= length lines)%nat.
Proof.
  revert orders. induction lines as [| line rest IH]; intros orders; [done |].
  cbn [Run_loop]. rewrite stdout_app, length_app. specialize (IH (fun n => orders (S n))).
  assert (Hone : forall w, w = [] \/ (exists d, w = [Println d]) \/ (exists m, w = [LogPrintf m])
                           -> (length (stdout w) <= 1)%nat).
  { intros w [-> | [[d ->] | [m ->]]]; cbn; lia. }
  match goal with |- (length (stdout ?w) + _ <= _)%nat => assert (length (stdout w) <= 1)%nat end.
  { apply Hone. repeat case_match; eauto. }
  cbn [length]. lia.
Qed.

(** X19: the server never speaks unprompted: standard output holds at most
    one line per input line, and each line written is the serialised
    response to a request parsed from a non-blank input line. *)
Theorem every_reply_answers_a_request (orders : nat -> RangeOrder) (s : MCPServer.t)
    (lines : list string) (scanErr : option string) :
  (length (stdout (run orders s lines scanErr)) <= length lines)%nat
  /\ forall data,
       data ∈ stdout (run orders s lines scanErr) ->
       exists i line req,
         lines !! i = Some line
         /\ TrimSpace line <> ""
         /\ Unmarshal line = inr req
         /\ Marshal (Server.HandleRequest (orders i) s req) = inr data.
Proof.
  rewrite stdout_Run. split; [apply loop_stdout_length |].
  revert orders. induction lines as [| line rest IH]; intros orders data Hin.
  - by apply elem_of_nil in Hin.
  - cbn [Run_loop] in Hin. rewrite stdout_app, elem_of_app in Hin.
    destruct Hin as [Hin | Hin].
    + destruct (String.eqb_spec (TrimSpace line) "") as [Hblank | Hblank];
        [by apply elem_of_nil in Hin |].
      destruct (Unmarshal line) as [err | req] eqn:Hreq; [by apply elem_of_nil in Hin |].
      destruct (Marshal (Server.HandleRequest (orders 0%nat) s req)) as [err | d] eqn:Hd;
        [by apply elem_of_nil in Hin |].
      apply list_elem_of_singleton in Hin as ->.
      by exists 0%nat, line, req.
    + destruct (IH (fun n => orders (S n)) data Hin) as (i & l & req & Hl & Hb & Hr & Hm).
      by exists (S i), l, req.
Qed.

(** X20: when every line is a non-blank parsable request and responses
    always serialise, each request is answered, and the replies come in the
    order of the requests: line [i] of the output is the response to line
    [i] of the input. *)
Theorem requests_are_answered_in_order (orders : nat -> RangeOrder) (s : MCPServer.t)
    (lines : list string) (scanErr : option string) :
  Forall (fun line => TrimSpace line <> "" /\ exists req, Unmarshal line = inr req) lines ->
  (forall resp, exists data, Marshal resp = inr data) ->
  length (stdout (run orders s lines scanErr)) = length lines
  /\ logged (run orders s lines None) = []
  /\ forall i line,
       lines !! i = Some line ->
       exists req data,
         Unmarshal line = inr req
         /\ Marshal (Server.HandleRequest (orders i) s req) = inr data
         /\ stdout (run orders s lines scanErr) !! i = Some data.
Proof.
  intros Hall Hmarshal. rewrite !stdout_Run. unfold Run. rewrite app_nil_r.
  revert orders. induction Hall as [| line rest [Hb [req Hreq]] _ IH]; intros orders.
  - split; [done |]. split; [done |]. intros i line Hl. by rewrite lookup_nil in Hl.
  - destruct (IH (fun n => orders (S n))) as (IHlen & IHlog & IHat).
    destruct (Hmarshal (Server.HandleRequest (orders 0%nat) s req)) as [data Hdata].
    cbn [Run_loop].
    destruct (String.eqb_spec (TrimSpace line) "") as [Hblank | _]; [done |].
    rewrite Hreq, Hdata, stdout_app, logged_app.
    change (stdout [Println data]) with [data].
    change (logged [Println data]) with (@nil string).
    cbn [app length].
    split; [by rewrite IHlen |]. split; [done |].
    intros [| i] l Hl.
    + injection Hl as <-. by exists req, data.
    + by apply IHat.
Qed.

End Loop.

(** A blank line and a line that is not JSON, on the registry of [main]. *)
Lemma dropped_lines_get_no_reply_witness :
  stdout (Run toyTrimSpace toyUnmarshal toyMarshal (sameOrder noOrder) Server.mainServer
            [" "; "not json"] None)
  = []
  /\ length (logged (Run_loop toyTrimSpace toyUnmarshal toyMarshal (sameOrder noOrder)
                       Server.mainServer [" "; "not json"]))
     = 1%nat.
Proof.
  destruct (dropped_lines_get_no_reply toyTrimSpace toyUnmarshal toyMarshal
              (sameOrder noOrder) Server.mainServer [" "; "not json"] None)
    as (Hout & _ & Hlog).
  - apply Forall_cons. split; [by left |].
    apply Forall_cons. split; [right; by exists "invalid character" | apply Forall_nil_2].
  - split; [exact Hout | exact Hlog].
Defined.

(** Two [initialize] requests. *)
Lemma requests_are_answered_in_order_witness :
  length (stdout (Run toyTrimSpace toyUnmarshal toyMarshal (sameOrder noOrder)
                    Server.mainServer ["init"; "init"] None))
  = 2%nat.
Proof.
  apply (requests_are_answered_in_order toyTrimSpace toyUnmarshal toyMarshal
           (sameOrder noOrder) Server.mainServer ["init"; "init"] None).
  - apply Forall_cons. split; [split; [discriminate | by exists reqInitialize] |].
    apply Forall_cons. split; [split; [discriminate | by exists reqInitialize] |].
    apply Forall_nil_2.
  - intros resp. by exists "{}".
Defined.

(** ** The draft against the server *)

(** X21: the draft's [tools/call] handler and the server's give the same
    response to every request, unless the request names a tool that is not
    registered. *)
Theorem draft_tools_call_agrees (s : MCPServer.t) (req : JSONRPCRequest.t) :
  (forall params toolName,
     JSONRPCRequest.Params req = AMap params ->
     index params "name" = AString toolName ->
     is_Some (MCPServer.tools s !! toolName)) ->
  Draft.handleToolsCall s req = Server.handleToolsCall s req.
Proof.
  intros Hreg. unfold Draft.handleToolsCall, Server.handleToolsCall.
  destruct (JSONRPCRequest.Params req) as [| | | | | params | | | |] eqn:Hp; cbn [assertMap];
    try reflexivity.
  destruct (index params "name") as [| | | toolName | | | | | |] eqn:Hn; cbn [assertString];
    try reflexivity.
  destruct (Hreg params toolName eq_refl Hn) as [tool Ht]. by rewrite Ht.
Qed.

Lemma draft_tools_call_agrees_witness :
  Draft.handleToolsCall Server.mainServer (reqToolsCall "echo" (AMap ∅))
  = Server.handleToolsCall Server.mainServer (reqToolsCall "echo" (AMap ∅)).
Proof.
  apply (draft_tools_call_agrees Server.mainServer (reqToolsCall "echo" (AMap ∅))).
  intros params toolName Hp Hn. injection Hp as <-.
  injection Hn as <-. by exists Server.echoTool.
Defined.

(** X22: the draft's [resources/read] handler answers every request as the
    server's does, except that for params that are an object without a
    string [uri] its message is ["Invalid parameters"] where the server
    says ["URI is required"]; the code is -32602 in both. *)
Theorem draft_resources_read_agrees (s : MCPServer.t) (req : JSONRPCRequest.t) :
  Draft.hadleResourcesRead s req = Server.handleResourcesRead s req
  \/ (Draft.hadleResourcesRead s req
      = failure (JSONRPCRequest.ID req) (-32602) "Invalid parameters"
      /\ Server.handleResourcesRead s req
         = failure (JSONRPCRequest.ID req) (-32602) "URI is required"
      /\ exists params,
           JSONRPCRequest.Params req = AMap params
           /\ assertString (index params "uri") = None).
Proof.
  unfold Draft.hadleResourcesRead, Server.handleResourcesRead.
  destruct (JSONRPCRequest.Params req) as [| | | | | params | | | |] eqn:Hp; cbn [assertMap];
    try (by left).
  destruct (assertString (index params "uri")) as [uri |] eqn:Hu.
  - left. unfold Draft.readResource, Server.readResource.
    by destruct (HasPrefix uri "file://"), (HasPrefix uri "https://").
  - right. split; [done |]. split; [done |]. by exists params.
Qed.



(** ** The program as started by [main] *)

Section WholeProgram.
Variable TrimSpace : string -> string.
Variable Unmarshal : string -> string + JSONRPCRequest.t.
Variable Marshal : JSONRPCResponse.t -> string + string.



End WholeProgram.

